(** * OakNorth grants working sheet: the projection engine

    A shallow embedding of [calculate_results] from
    [oaknorth-grants-on.py] and the properties of the table it returns.

    The Python function fills a dictionary [results] that maps a year to a
    dictionary from field names to numbers.  It is embedded here as it is
    written: the nested dictionaries are finite maps, every subscript
    [results[year][field]] is a lookup that may raise [KeyError], and each
    assignment is an update of the store that the statements thread from
    one to the next.

    Numbers are kept abstract ([Num]): the engine only adds, subtracts,
    multiplies and compares them.  There are two instances.  [float_Num]
    is IEEE 754 binary64, the arithmetic the Python code runs in: what
    the code returns on given inputs is computed with it.  [Q_Num] is
    exact rational arithmetic: it is the arithmetic of the recurrences as
    they are written, without rounding or overflow, and the properties
    proved with it are properties of the recurrences in exact
    arithmetic.  Properties that do not depend on the arithmetic are
    proved for every instance. *)

From Stdlib Require Import QArith Qminmax Qpower Lqa Lia ZArith Floats.
From stdpp Require Import base option gmap strings list fin_maps sorting.

Local Open Scope Z_scope.
Local Open Scope string_scope.

(** ** Numbers *)

(** What the engine asks of a number: the three arithmetic operations it
    uses, the strict comparison behind [<], [>], [min] and [max], and
    numeric literals. *)
Class Num (A : Type) := {
  nadd : A -> A -> A;
  nsub : A -> A -> A;
  nmul : A -> A -> A;
  nltb : A -> A -> bool;
  nlit : Q -> A
}.

(** [results]: year to (field name to value). *)
Abbreviation table A := (gmap Z (gmap string A)) (only parsing).

Section Engine.

Context {A : Type} `{NumA : Num A}.

(** Python's [max(a, b)]: the first argument unless the second is
    strictly greater. *)
Definition pymax (a b : A) : A := if nltb a b then b else a.

(** Python's [min(a, b)]: the first argument unless the second is
    strictly smaller. *)
Definition pymin (a b : A) : A := if nltb b a then b else a.

(** ** Inputs *)

(** The module-level names read by [calculate_results].  An entry of
    [vested_shares_input] is [None] when the stored value is Python's
    [None]. *)
Record globals := {
  pbt_growth_rate : A;
  common_redemption_rate : A;
  option_redemption_rate : A;
  total_common_shares : A;
  common_purchase_price : A;
  strike_price : A;
  total_grant_shares : A;
  vested_shares_input : gmap Z (option A)
}.

(** ** The store *)

(** Statements: they read and update [results], and fail on a missing
    key. *)
Definition M (X : Type) : Type := table A -> option (X * table A).

(** A value, with [results] left as it is. *)
Definition ret {X} (x : X) : M X := fun t => Some (x, t).

(** One statement after another. *)
Definition bind {X Y} (c : M X) (k : X -> M Y) : M Y :=
  fun t => match c t with
           | Some (x, t') => k x t'
           | None => None
           end.

(** [results[year] = {}] *)
Definition new_record (year : Z) : M unit :=
  fun t => Some (tt, <[year := ∅]> t).

(** [results[year][field]] *)
Definition get (year : Z) (field : string) : M A :=
  fun t => match t !! year with
           | Some r => match r !! field with
                       | Some v => Some (v, t)
                       | None => None
                       end
           | None => None
           end.

(** [results[year][field] = v] *)
Definition set (year : Z) (field : string) (v : A) : M unit :=
  fun t => match t !! year with
           | Some r => Some (tt, <[year := <[field := v]> r]> t)
           | None => None
           end.

(** [for year in ys: body] *)
Fixpoint for_each (ys : list Z) (body : Z -> M unit) : M unit :=
  match ys with
  | [] => ret tt
  | year :: rest => bind (body year) (fun _ => for_each rest body)
  end.

(** [range(a, b)] *)
Definition range (a b : Z) : list Z := seqZ a (b - a).

End Engine.

Arguments globals A : clear implicits.
Arguments M A X : clear implicits.

Declare Scope py_scope.
Delimit Scope py_scope with py.
Notation "x <- c ;; k" := (bind c (fun x => k))
  (at level 100, c at next level, right associativity) : py_scope.
Notation "c ;; k" := (bind c (fun _ => k))
  (at level 100, right associativity) : py_scope.

Section Calculate.

Context {A : Type} `{NumA : Num A}.
Variable G : globals A.

Local Open Scope py_scope.

Local Notation "a + b" := (nadd a b) : py_scope.
Local Notation "a - b" := (nsub a b) : py_scope.
Local Notation "a * b" := (nmul a b) : py_scope.

(** Lines 209-214. *)
Definition years : list Z := range 2024 2036.

Definition initialise : M A unit :=
  for_each years new_record.

(** Lines 216-219: the share price series. *)
Definition share_price_series (current_growth_rate : A) : M A unit :=
  set 2024 "Share Price" (nlit 6) ;;
  for_each (range 2025 2036) (fun year =>
    p <- get (year - 1)%Z "Share Price" ;;
    set year "Share Price" (p * (nlit 1 + current_growth_rate))).

(** Lines 221-268: common shares. *)
Definition common_shares (current_common_redemption : A) : M A unit :=
  for_each years (fun year =>
    set year "Common Shares Redeemed" (nlit 0) ;;
    set year "Cumulative Common Redeemed" (nlit 0) ;;
    set year "Unsold Common Shares" (nlit 0) ;;
    set year "Common Redemption Value" (nlit 0) ;;
    set year "Cumulative Common Redemption Value" (nlit 0) ;;
    set year "Value of Unsold Common Shares" (nlit 0) ;;
    set year "Total Common Share Value" (nlit 0)) ;;
  set 2024 "Unsold Common Shares" (total_common_shares G) ;;
  set 2025 "Common Shares Redeemed" (nlit 0) ;;
  set 2025 "Cumulative Common Redeemed" (nlit 0) ;;
  set 2025 "Unsold Common Shares" (total_common_shares G) ;;
  set 2025 "Common Redemption Value" (nlit 0) ;;
  set 2025 "Cumulative Common Redemption Value" (nlit 0) ;;
  price_2025 <- get 2025 "Share Price" ;;
  let common_price_diff_2025 :=
    pymax (nlit 0) (price_2025 - common_purchase_price G) in
  unsold_2025 <- get 2025 "Unsold Common Shares" ;;
  set 2025 "Value of Unsold Common Shares"
      (common_price_diff_2025 * unsold_2025) ;;
  value_2025 <- get 2025 "Value of Unsold Common Shares" ;;
  set 2025 "Total Common Share Value" value_2025 ;;
  for_each (range 2026 2036) (fun year =>
    prev_unsold <- get (year - 1)%Z "Unsold Common Shares" ;;
    set year "Common Shares Redeemed"
        (prev_unsold * current_common_redemption) ;;
    prev_cum <- get (year - 1)%Z "Cumulative Common Redeemed" ;;
    redeemed <- get year "Common Shares Redeemed" ;;
    set year "Cumulative Common Redeemed" (prev_cum + redeemed) ;;
    cum <- get year "Cumulative Common Redeemed" ;;
    set year "Unsold Common Shares" (total_common_shares G - cum) ;;
    price <- get year "Share Price" ;;
    let common_price_diff :=
      pymax (nlit 0) (price - common_purchase_price G) in
    redeemed <- get year "Common Shares Redeemed" ;;
    set year "Common Redemption Value" (common_price_diff * redeemed) ;;
    prev_cum_value <- get (year - 1)%Z "Cumulative Common Redemption Value" ;;
    value <- get year "Common Redemption Value" ;;
    set year "Cumulative Common Redemption Value" (prev_cum_value + value) ;;
    unsold <- get year "Unsold Common Shares" ;;
    set year "Value of Unsold Common Shares" (common_price_diff * unsold) ;;
    cum_value <- get year "Cumulative Common Redemption Value" ;;
    unsold_value <- get year "Value of Unsold Common Shares" ;;
    set year "Total Common Share Value" (cum_value + unsold_value)).

(** The safety check of lines 288 and 310:
    [v is None or v < 0 or v > total_grant_shares]. *)
Definition invalid_vested (v : option A) : bool :=
  match v with
  | None => true
  | Some x => nltb x (nlit 0) || nltb (total_grant_shares G) x
  end.

(** Line 287: [vested_shares_input.get(2025, 0)]. *)
Definition supplied_2025 : option A :=
  default (Some (nlit 0)) (vested_shares_input G !! 2025).

(** Line 307:
    [vested_shares_input.get(year, vested_shares_input.get(year-1, 0))]. *)
Definition supplied (year : Z) : option A :=
  default (default (Some (nlit 0)) (vested_shares_input G !! (year - 1)%Z))
          (vested_shares_input G !! year).

(** Lines 287-289. *)
Definition vested_2025 : A :=
  if invalid_vested supplied_2025
  then pymin (nlit 60000) (total_grant_shares G)
  else default (nlit 0) supplied_2025.

(** Lines 307-312: the vested shares of [year].  The record of the year
    before is read only when the safety check rejects the stored value.
    A value that passes the check is a number, so the [default] below
    never applies. *)
Definition checked_vested_shares (year : Z) : M A A :=
  let vested_shares := supplied year in
  if invalid_vested vested_shares
  then prev_vested <- get (year - 1)%Z "Vested Shares" ;;
       ret (pymin (prev_vested + nlit 5000) (total_grant_shares G))
  else ret (default (nlit 0) vested_shares).

(** Lines 270-339: A-shares / options. *)
Definition option_shares (current_option_redemption : A) : M A unit :=
  for_each years (fun year =>
    set year "Vested Shares" (nlit 0) ;;
    set year "Vested Unsold Shares" (nlit 0) ;;
    set year "Redeemed Shares" (nlit 0) ;;
    set year "Cumulative Redeemed" (nlit 0) ;;
    set year "Unsold Shares" (nlit 0) ;;
    set year "Redemption Value" (nlit 0) ;;
    set year "Cumulative Redemption Value" (nlit 0) ;;
    set year "Value of Unsold Shares" (nlit 0) ;;
    set year "Total Grant Value" (nlit 0)) ;;
  set 2024 "Unsold Shares" (total_grant_shares G) ;;
  set 2025 "Vested Shares" vested_2025 ;;
  set 2025 "Redeemed Shares" (nlit 0) ;;
  set 2025 "Cumulative Redeemed" (nlit 0) ;;
  vested <- get 2025 "Vested Shares" ;;
  set 2025 "Vested Unsold Shares" vested ;;
  set 2025 "Unsold Shares" (total_grant_shares G) ;;
  set 2025 "Redemption Value" (nlit 0) ;;
  set 2025 "Cumulative Redemption Value" (nlit 0) ;;
  price_2025 <- get 2025 "Share Price" ;;
  let share_price_diff_2025 :=
    pymax (nlit 0) (price_2025 - strike_price G) in
  vested <- get 2025 "Vested Shares" ;;
  set 2025 "Value of Unsold Shares" (share_price_diff_2025 * vested) ;;
  value_2025 <- get 2025 "Value of Unsold Shares" ;;
  set 2025 "Total Grant Value" value_2025 ;;
  for_each (range 2026 2036) (fun year =>
    vested_shares <- checked_vested_shares year ;;
    set year "Vested Shares" vested_shares ;;
    prev_vested_unsold <- get (year - 1)%Z "Vested Unsold Shares" ;;
    set year "Redeemed Shares"
        (prev_vested_unsold * current_option_redemption) ;;
    prev_cum <- get (year - 1)%Z "Cumulative Redeemed" ;;
    redeemed <- get year "Redeemed Shares" ;;
    set year "Cumulative Redeemed" (prev_cum + redeemed) ;;
    vested <- get year "Vested Shares" ;;
    cum <- get year "Cumulative Redeemed" ;;
    set year "Vested Unsold Shares" (pymax (nlit 0) (vested - cum)) ;;
    cum <- get year "Cumulative Redeemed" ;;
    set year "Unsold Shares" (total_grant_shares G - cum) ;;
    price <- get year "Share Price" ;;
    let share_price_diff := pymax (nlit 0) (price - strike_price G) in
    redeemed <- get year "Redeemed Shares" ;;
    set year "Redemption Value" (share_price_diff * redeemed) ;;
    prev_cum_value <- get (year - 1)%Z "Cumulative Redemption Value" ;;
    value <- get year "Redemption Value" ;;
    set year "Cumulative Redemption Value" (prev_cum_value + value) ;;
    vested_unsold <- get year "Vested Unsold Shares" ;;
    set year "Value of Unsold Shares" (share_price_diff * vested_unsold) ;;
    cum_value <- get year "Cumulative Redemption Value" ;;
    unsold_value <- get year "Value of Unsold Shares" ;;
    set year "Total Grant Value" (cum_value + unsold_value)).

(** Lines 341-343. *)
Definition combined_values : M A unit :=
  for_each (range 2025 2036) (fun year =>
    common <- get year "Total Common Share Value" ;;
    grant <- get year "Total Grant Value" ;;
    set year "Combined Total Value" (common + grant)).

(** The body of [calculate_results] once the three rates are chosen
    (lines 209-343). *)
Definition fill_results (current_growth_rate current_common_redemption
                         current_option_redemption : A) : M A unit :=
  initialise ;;
  share_price_series current_growth_rate ;;
  common_shares current_common_redemption ;;
  option_shares current_option_redemption ;;
  combined_values.

(** [calculate_results(growth_rate=None, custom_common_redemption=None,
    custom_option_redemption=None)]: an argument left at [None] takes the
    module-level value (lines 194-207).  The result is the final
    [results], or [None] when a subscript failed. *)
Definition calculate_results
    (growth_rate custom_common_redemption custom_option_redemption : option A)
    : option (table A) :=
  let current_growth_rate := default (pbt_growth_rate G) growth_rate in
  let current_common_redemption :=
    default (common_redemption_rate G) custom_common_redemption in
  let current_option_redemption :=
    default (option_redemption_rate G) custom_option_redemption in
  snd <$> fill_results current_growth_rate current_common_redemption
                       current_option_redemption ∅.

(** ** The table, year by year

    The statements above fill the store in passes.  Read year by year
    they are a recurrence: the record of a year is computed from the
    record of the year before.  The recurrence is written out here, one
    function per field, and [calculate_results_returns] below shows that
    it is the table [calculate_results] returns.  Offsets count years: [n] is
    year [2024 + n] for the share price and year [2025 + n] for the
    other fields. *)

Section Recurrence.

Variables g cr orr : A.

Fixpoint share_price (n : nat) : A :=
  match n with
  | O => nlit 6
  | S k => share_price k * (nlit 1 + g)
  end.

(** [max(0, price - purchase price)] in year [2025 + n]. *)
Definition common_price_diff (n : nat) : A :=
  pymax (nlit 0) (share_price (S n) - common_purchase_price G).

(** Cumulative redeemed and unsold common shares. *)
Fixpoint common_balance (n : nat) : A * A :=
  match n with
  | O => (nlit 0, total_common_shares G)
  | S k =>
      let cum := fst (common_balance k) + snd (common_balance k) * cr in
      (cum, total_common_shares G - cum)
  end.

Definition common_cum (n : nat) : A := fst (common_balance n).
Definition common_unsold (n : nat) : A := snd (common_balance n).

Definition common_redeemed (n : nat) : A :=
  match n with
  | O => nlit 0
  | S k => common_unsold k * cr
  end.

Definition common_value (n : nat) : A :=
  match n with
  | O => nlit 0
  | S k => common_price_diff n * common_redeemed n
  end.

Fixpoint common_cum_value (n : nat) : A :=
  match n with
  | O => nlit 0
  | S k => common_cum_value k + common_value (S k)
  end.

Definition common_unsold_value (n : nat) : A :=
  common_price_diff n * common_unsold n.

Definition common_total (n : nat) : A :=
  match n with
  | O => common_unsold_value O
  | S k => common_cum_value n + common_unsold_value n
  end.

(** [max(0, price - strike price)] in year [2025 + n]. *)
Definition share_price_diff (n : nat) : A :=
  pymax (nlit 0) (share_price (S n) - strike_price G).

(** What [checked_vested_shares year] returns when the vested shares of
    the year before are [prev_vested]. *)
Definition vested_shares (year : Z) (prev_vested : A) : A :=
  if invalid_vested (supplied year)
  then pymin (prev_vested + nlit 5000) (total_grant_shares G)
  else default (nlit 0) (supplied year).

Fixpoint vested (n : nat) : A :=
  match n with
  | O => vested_2025
  | S k => vested_shares (2026 + Z.of_nat k)%Z (vested k)
  end.

(** Cumulative redeemed and vested unsold shares. *)
Fixpoint option_balance (n : nat) : A * A :=
  match n with
  | O => (nlit 0, vested O)
  | S k =>
      let cum := fst (option_balance k) + snd (option_balance k) * orr in
      (cum, pymax (nlit 0) (vested (S k) - cum))
  end.

Definition option_cum (n : nat) : A := fst (option_balance n).
Definition vested_unsold (n : nat) : A := snd (option_balance n).

Definition option_redeemed (n : nat) : A :=
  match n with
  | O => nlit 0
  | S k => vested_unsold k * orr
  end.

Definition option_unsold (n : nat) : A :=
  match n with
  | O => total_grant_shares G
  | S k => total_grant_shares G - option_cum n
  end.

Definition option_value (n : nat) : A :=
  match n with
  | O => nlit 0
  | S k => share_price_diff n * option_redeemed n
  end.

Fixpoint option_cum_value (n : nat) : A :=
  match n with
  | O => nlit 0
  | S k => option_cum_value k + option_value (S k)
  end.

Definition option_unsold_value (n : nat) : A :=
  share_price_diff n * vested_unsold n.

Definition option_total (n : nat) : A :=
  match n with
  | O => option_unsold_value O
  | S k => option_cum_value n + option_unsold_value n
  end.

Definition combined (n : nat) : A := common_total n + option_total n.

(** The fields of a record, pass by pass. *)
Definition zero_common_fields : list (string * A) := [
  ("Common Shares Redeemed", nlit 0);
  ("Cumulative Common Redeemed", nlit 0);
  ("Unsold Common Shares", nlit 0);
  ("Common Redemption Value", nlit 0);
  ("Cumulative Common Redemption Value", nlit 0);
  ("Value of Unsold Common Shares", nlit 0);
  ("Total Common Share Value", nlit 0)].

Definition common_fields_2024 : list (string * A) := [
  ("Common Shares Redeemed", nlit 0);
  ("Cumulative Common Redeemed", nlit 0);
  ("Unsold Common Shares", total_common_shares G);
  ("Common Redemption Value", nlit 0);
  ("Cumulative Common Redemption Value", nlit 0);
  ("Value of Unsold Common Shares", nlit 0);
  ("Total Common Share Value", nlit 0)].

Definition common_fields (n : nat) : list (string * A) := [
  ("Common Shares Redeemed", common_redeemed n);
  ("Cumulative Common Redeemed", common_cum n);
  ("Unsold Common Shares", common_unsold n);
  ("Common Redemption Value", common_value n);
  ("Cumulative Common Redemption Value", common_cum_value n);
  ("Value of Unsold Common Shares", common_unsold_value n);
  ("Total Common Share Value", common_total n)].

Definition zero_option_fields : list (string * A) := [
  ("Vested Shares", nlit 0);
  ("Vested Unsold Shares", nlit 0);
  ("Redeemed Shares", nlit 0);
  ("Cumulative Redeemed", nlit 0);
  ("Unsold Shares", nlit 0);
  ("Redemption Value", nlit 0);
  ("Cumulative Redemption Value", nlit 0);
  ("Value of Unsold Shares", nlit 0);
  ("Total Grant Value", nlit 0)].

Definition option_fields_2024 : list (string * A) := [
  ("Vested Shares", nlit 0);
  ("Vested Unsold Shares", nlit 0);
  ("Redeemed Shares", nlit 0);
  ("Cumulative Redeemed", nlit 0);
  ("Unsold Shares", total_grant_shares G);
  ("Redemption Value", nlit 0);
  ("Cumulative Redemption Value", nlit 0);
  ("Value of Unsold Shares", nlit 0);
  ("Total Grant Value", nlit 0)].

Definition option_fields (n : nat) : list (string * A) := [
  ("Vested Shares", vested n);
  ("Vested Unsold Shares", vested_unsold n);
  ("Redeemed Shares", option_redeemed n);
  ("Cumulative Redeemed", option_cum n);
  ("Unsold Shares", option_unsold n);
  ("Redemption Value", option_value n);
  ("Cumulative Redemption Value", option_cum_value n);
  ("Value of Unsold Shares", option_unsold_value n);
  ("Total Grant Value", option_total n)].

(** A record with the given share price and further fields. *)
Definition record (price : A) (fields : list (string * A)) : gmap string A :=
  list_to_map (("Share Price", price) :: fields).

(** The record of year 2024 in the returned table. *)
Definition record_2024 : gmap string A :=
  record (share_price 0) (common_fields_2024 ++ option_fields_2024).

(** The record of year [2025 + n] in the returned table. *)
Definition record_of (n : nat) : gmap string A :=
  record (share_price (S n))
         (common_fields n ++ option_fields n ++
          [("Combined Total Value", combined n)]).

End Recurrence.

End Calculate.

(** A table by its records: [first] for 2024, [rest n] for [2025 + n]
    up to 2035, and nothing else. *)
Definition by_year {A} (first : gmap string A) (rest : nat -> gmap string A)
    (year : Z) : option (gmap string A) :=
  if decide (year = 2024) then Some first
  else if decide (2025 <= year <= 2035)
       then Some (rest (Z.to_nat (year - 2025)))
       else None.

(** A statement runs to completion from [t] and leaves a table that
    satisfies [post]. *)
Definition completes {A} (c : M A unit) (t : table A)
    (post : table A -> Prop) : Prop :=
  exists t', c t = Some (tt, t') /\ post t'.

(** [t] holds exactly the records [R] gives. *)
Definition holds {A} (t : table A) (R : Z -> option (gmap string A)) : Prop :=
  forall y, t !! y = R y.

(** The value of a field of a year in a returned table. *)
Definition field {A} (t : table A) (year : Z) (name : string) : option A :=
  match t !! year with
  | Some r => r !! name
  | None => None
  end.

(** ** Exact rational numbers *)

(** Arithmetic without rounding and without overflow.  This is not the
    arithmetic of Python's floats (see [float_Num] below): a statement
    over [Q] is a statement about the recurrences in exact arithmetic. *)

Definition Qltb (a b : Q) : bool := negb (Qle_bool b a).

#[export] Instance Q_Num : Num Q := {|
  nadd := Qplus; nsub := Qminus; nmul := Qmult;
  nltb := Qltb; nlit := fun q => q
|}.

(** The sidebar's defaults: growth 20%, redemption 5%, 30,000 common
    shares bought at 2.00, a grant of 100,000 at strike 6.00 and the
    default vesting schedule (lines 20-123). *)
Definition default_globals : globals Q := {|
  pbt_growth_rate := (20 # 100)%Q;
  common_redemption_rate := (5 # 100)%Q;
  option_redemption_rate := (5 # 100)%Q;
  total_common_shares := 30000%Q;
  common_purchase_price := 2%Q;
  strike_price := 6%Q;
  total_grant_shares := 100000%Q;
  vested_shares_input :=
    list_to_map [
      (2025, Some 60000%Q); (2026, Some 70000%Q); (2027, Some 80000%Q);
      (2028, Some 90000%Q); (2029, Some 100000%Q); (2030, Some 100000%Q);
      (2031, Some 100000%Q); (2032, Some 100000%Q); (2033, Some 100000%Q);
      (2034, Some 100000%Q); (2035, Some 100000%Q)]
|}.

(** A grant of -10 shares with half of the vested unsold shares redeemed
    each year and no vesting schedule. *)
Definition negative_grant : globals Q := {|
  pbt_growth_rate := (20 # 100)%Q;
  common_redemption_rate := (5 # 100)%Q;
  option_redemption_rate := (1 # 2)%Q;
  total_common_shares := 30000%Q;
  common_purchase_price := 2%Q;
  strike_price := 6%Q;
  total_grant_shares := (-10)%Q;
  vested_shares_input := ∅
|}.

(** The defaults with a schedule that starts at [first] in 2025, exceeds
    the grant of 100,000 in 2026 and is negative in 2027. *)
Definition out_of_range_schedule (first : Q) : globals Q := {|
  pbt_growth_rate := (20 # 100)%Q;
  common_redemption_rate := (5 # 100)%Q;
  option_redemption_rate := (5 # 100)%Q;
  total_common_shares := 30000%Q;
  common_purchase_price := 2%Q;
  strike_price := 6%Q;
  total_grant_shares := 100000%Q;
  vested_shares_input :=
    list_to_map [(2025, Some first); (2026, Some 200000%Q);
                 (2027, Some (-1)%Q)]
|}.

(** The scenario of the specification: growth 20%, common redemption
    5%, 30,000 common shares bought at 2.00; the option side is free. *)
Definition scenario (orr strike grant : Q) (schedule : gmap Z (option Q))
    : globals Q := {|
  pbt_growth_rate := 0.20%Q;
  common_redemption_rate := 0.05%Q;
  option_redemption_rate := orr;
  total_common_shares := 30000%Q;
  common_purchase_price := 2.00%Q;
  strike_price := strike;
  total_grant_shares := grant;
  vested_shares_input := schedule
|}.

(** A stored vested count the safety check rejects: [None], or a number
    outside [0, total_grant_shares]. *)
Definition rejected (G : globals Q) (e : option Q) : Prop :=
  e = None \/
  exists x, e = Some x /\ (x < 0 \/ total_grant_shares G < x)%Q.

(** The names of the fields of a yearly record; the record of 2024 has
    all of them but the last. *)
Definition field_names_2024 : list string := [
  "Share Price";
  "Common Shares Redeemed"; "Cumulative Common Redeemed";
  "Unsold Common Shares"; "Common Redemption Value";
  "Cumulative Common Redemption Value"; "Value of Unsold Common Shares";
  "Total Common Share Value";
  "Vested Shares"; "Vested Unsold Shares"; "Redeemed Shares";
  "Cumulative Redeemed"; "Unsold Shares"; "Redemption Value";
  "Cumulative Redemption Value"; "Value of Unsold Shares";
  "Total Grant Value"].

Definition field_names : list string :=
  field_names_2024 ++ ["Combined Total Value"].

(** ** Binary64 floats *)

(** The numbers the Python code computes with: IEEE 754 binary64, with
    rounding to nearest even, overflow to the infinities, and NaN.  The
    operations are the kernel's primitive ones.  A Python [int] is
    represented by the float of the same value, which is exact up to
    2^53 in absolute value; larger ints, and the [OverflowError] Python
    raises when it converts an int above the float range, are outside
    this model.  Float arithmetic itself never raises in Python: an
    overflow gives an infinity, an undefined result gives NaN. *)

(** [float(z)]. *)
Definition float_of_Z (z : Z) : float :=
  match z with
  | Z0 => 0%float
  | Zpos _ => of_uint63 (Uint63.of_Z z)
  | Zneg p => (- of_uint63 (Uint63.of_Z (Zpos p)))%float
  end.

(** A literal of the source (all of them are far below 2^53): [6.00]
    and [60000] are exact; [0.20] is [20 / 100] rounded once, which is
    the float nearest to 0.20. *)
Definition float_of_Q (q : Q) : float :=
  (float_of_Z (Qnum q) / float_of_Z (Zpos (Qden q)))%float.

#[export] Instance float_Num : Num float := {|
  nadd := PrimFloat.add; nsub := PrimFloat.sub; nmul := PrimFloat.mul;
  nltb := PrimFloat.ltb; nlit := float_of_Q
|}.

(** ** The module-level code around [calculate_results] *)

Definition common_field_names : list string := [
  "Common Shares Redeemed"; "Cumulative Common Redeemed";
  "Unsold Common Shares"; "Common Redemption Value";
  "Cumulative Common Redemption Value"; "Value of Unsold Common Shares";
  "Total Common Share Value"].

Definition option_field_names : list string := [
  "Vested Shares"; "Vested Unsold Shares"; "Redeemed Shares";
  "Cumulative Redeemed"; "Unsold Shares"; "Redemption Value";
  "Cumulative Redemption Value"; "Value of Unsold Shares";
  "Total Grant Value"].

(** Lines 103-109. *)
Definition default_values : gmap Z Q :=
  list_to_map [(2025, 60000%Q); (2026, 70000%Q); (2027, 80000%Q);
               (2028, 90000%Q); (2029, 100000%Q)].

(** Line 112. *)
Definition years_range : list Z := range 2025 2036.

(** Lines 113-123 (and again 174-181): the schedule that is used unless
    custom values are entered. *)
Definition default_vesting {A} `{Num A} (total_grant_shares : A)
    : gmap Z (option A) :=
  foldl (fun vested_shares_input year =>
           match default_values !! year with
           | Some default_value =>
               <[year := Some (pymin (nlit default_value) total_grant_shares)]>
                 vested_shares_input
           | None =>
               <[year := Some (pymin (nlit 100000) total_grant_shares)]>
                 vested_shares_input
           end)
        ∅ years_range.

(** [vested_shares_input[year]] as a number: fails when the year is
    missing or the stored value is [None]. *)
Definition number_at {A} (vested_shares_input : gmap Z (option A))
    (year : Z) : option A :=
  match vested_shares_input !! year with
  | Some (Some x) => Some x
  | _ => None
  end.

(** Lines 184-189: the check of custom vesting values.  The result lists
    the pairs (current year, previous year) a warning is shown for, in
    the order of the warnings. *)
Definition vesting_warnings {A} `{Num A}
    (vested_shares_input : gmap Z (option A)) : option (list (Z * Z)) :=
  let sorted_years := merge_sort Z.le ((map_to_list vested_shares_input).*1) in
  foldl (fun (warnings : option (list (Z * Z))) (i : nat) =>
           shown ← warnings;
           current_year ← sorted_years !! i;
           prev_year ← sorted_years !! (i - 1)%nat;
           current ← number_at vested_shares_input current_year;
           prev ← number_at vested_shares_input prev_year;
           Some (if nltb current prev
                 then (shown ++ [(current_year, prev_year)])%list
                 else shown))
        (Some []) (seq 1 (length sorted_years - 1)).

(** Lines 348-367: the results that are displayed.  When the first run
    fails the engine is run again with fixed rates; when that fails too
    the page stops. *)
Definition displayed_results {A} `{Num A} (G : globals A)
    : option (table A) :=
  match calculate_results G None None None with
  | Some results => Some results
  | None =>
      calculate_results G (Some (nlit 0.10%Q)) (Some (nlit 0.05%Q))
                        (Some (nlit 0.05%Q))
  end.

(** ** Statements about the returned table *)

(** Field [name] of year [year] is present in [t] and has the value [q]
    (as a rational number). *)
Definition field_is (t : table Q) (year : Z) (name : string) (q : Q) : Prop :=
  exists v, field t year name = Some v /\ (v == q)%Q.

(** Field [name] of year [year] is present in [t] and is at most [q]. *)
Definition field_le (t : table Q) (year : Z) (name : string) (q : Q) : Prop :=
  exists v, field t year name = Some v /\ (v <= q)%Q.



(** ** Statements about the check of custom vesting values *)

(** The number a schedule holds for a year ([0] when there is none). *)
Definition stored {A} `{Num A} (vested_shares_input : gmap Z (option A))
    (year : Z) : A :=
  default (nlit 0) (number_at vested_shares_input year).

(** The warning about the [i]-th year after 2025, if the check shows
    one. *)
Definition warning_of {A} `{Num A} (vested_shares_input : gmap Z (option A))
    (i : nat) : option (Z * Z) :=
  if nltb (stored vested_shares_input (2025 + Z.of_nat i))
          (stored vested_shares_input (2025 + Z.of_nat i - 1))
  then Some (2025 + Z.of_nat i, 2025 + Z.of_nat i - 1)
  else None.

(** ** Further inputs *)

(** The sidebar's defaults as the floats Python holds. *)
Definition binary64_defaults : globals float := {|
  pbt_growth_rate := nlit 0.20%Q;
  common_redemption_rate := nlit 0.05%Q;
  option_redemption_rate := nlit 0.05%Q;
  total_common_shares := nlit 30000%Q;
  common_purchase_price := nlit 2.00%Q;
  strike_price := nlit 6.00%Q;
  total_grant_shares := nlit 100000%Q;
  vested_shares_input := default_vesting (nlit 100000%Q)
|}.

(** The scenario of the specification as the floats Python holds; the
    option side is free. *)
Definition binary64_scenario (orr strike grant : float)
    (schedule : gmap Z (option float)) : globals float := {|
  pbt_growth_rate := nlit 0.20%Q;
  common_redemption_rate := nlit 0.05%Q;
  option_redemption_rate := orr;
  total_common_shares := nlit 30000%Q;
  common_purchase_price := nlit 2.00%Q;
  strike_price := strike;
  total_grant_shares := grant;
  vested_shares_input := schedule
|}.

(** The defaults with a growth rate that is not a number. *)
Definition nan_growth : globals float := {|
  pbt_growth_rate := nan;
  common_redemption_rate := nlit 0.05%Q;
  option_redemption_rate := nlit 0.05%Q;
  total_common_shares := nlit 30000%Q;
  common_purchase_price := nlit 2.00%Q;
  strike_price := nlit 6.00%Q;
  total_grant_shares := nlit 100000%Q;
  vested_shares_input := default_vesting (nlit 100000%Q)
|}.

(** The sidebar's defaults with the three rates set to 0. *)
Definition zero_rates : globals Q := {|
  pbt_growth_rate := 0%Q;
  common_redemption_rate := 0%Q;
  option_redemption_rate := 0%Q;
  total_common_shares := total_common_shares default_globals;
  common_purchase_price := common_purchase_price default_globals;
  strike_price := strike_price default_globals;
  total_grant_shares := total_grant_shares default_globals;
  vested_shares_input := vested_shares_input default_globals
|}.

(** A custom schedule: the default one for a grant of 100,000, with
    50,000 entered for 2027 (less than the 70,000 of 2026). *)
Definition custom_vesting : gmap Z (option Q) :=
  <[2027 := Some 50000%Q]> (default_vesting 100000%Q).

(** * Proofs *)

(** ** Running statements *)

Section Logic.

Context {A : Type} `{NumA : Num A}.
Implicit Types (t : table A) (r p : gmap string A) (f : string) (v : A).

Lemma bind_some {X Y} (c : M A X) (k : X -> M A Y) t x t' :
  c t = Some (x, t') -> bind c k t = k x t'.
Proof. intros H. unfold bind. by rewrite H. Qed.

Lemma get_here y f v r t :
  r !! f = Some v -> get y f (<[y := r]> t) = Some (v, <[y := r]> t).
Proof. intros H. unfold get. by rewrite lookup_insert_eq, H. Qed.

Lemma get_there y y' f v r p t :
  y' ≠ y -> t !! y' = Some p -> p !! f = Some v ->
  get y' f (<[y := r]> t) = Some (v, <[y := r]> t).
Proof.
  intros Hne Hp Hf. unfold get. by rewrite lookup_insert_ne, Hp, Hf.
Qed.

Lemma set_here y f v r t :
  set y f v (<[y := r]> t) = Some (tt, <[y := <[f := v]> r]> t).
Proof. unfold set. by rewrite lookup_insert_eq, insert_insert_eq. Qed.

Lemma for_each_app (l1 l2 : list Z) (body : Z -> M A unit) t :
  for_each (l1 ++ l2) body t =
  match for_each l1 body t with
  | Some (_, t') => for_each l2 body t'
  | None => None
  end.
Proof.
  revert t. induction l1 as [|y l1 IH]; intros t; simpl; [done|].
  unfold bind. destruct (body y t) as [[[] t']|]; [apply IH | done].
Qed.

(** The invariant rule of [for year in range(a, a + n)]. *)
Lemma for_each_seqZ (I : nat -> table A -> Prop) (a : Z) (n : nat)
    (body : Z -> M A unit) t :
  I O t ->
  (forall i t', (i < n)%nat -> I i t' ->
     exists t'', body (a + Z.of_nat i) t' = Some (tt, t'') /\ I (S i) t'') ->
  exists t', for_each (seqZ a (Z.of_nat n)) body t = Some (tt, t') /\ I n t'.
Proof.
  intros H0 Hstep. induction n as [|n IH].
  - exists t. by split.
  - destruct IH as (t1 & Hrun & HI); [intros; apply Hstep; [lia | done]|].
    destruct (Hstep n t1) as (t2 & Hbody & HI2); [lia | done |].
    exists t2. split; [|done].
    rewrite Nat2Z.inj_succ, <- Z.add_1_r, seqZ_app by lia.
    rewrite for_each_app, Hrun.
    change (seqZ (a + Z.of_nat n) 1) with [a + Z.of_nat n].
    simpl. unfold bind. by rewrite Hbody.
Qed.

Lemma completes_bind (c : M A unit) (k : unit -> M A unit) t post :
  completes c t (fun t' => completes (k tt) t' post) ->
  completes (bind c k) t post.
Proof.
  intros (t1 & H1 & t2 & H2 & Hp). exists t2. split; [|done].
  unfold bind. by rewrite H1.
Qed.

Lemma completes_get_here y f v r t (k : A -> M A unit) post :
  r !! f = Some v ->
  completes (k v) (<[y := r]> t) post ->
  completes (bind (get y f) k) (<[y := r]> t) post.
Proof.
  intros Hf (t' & H & Hp). exists t'. split; [|done].
  by rewrite (bind_some _ _ _ _ _ (get_here y f v r t Hf)).
Qed.

Lemma completes_get_there y y' f v r p t (k : A -> M A unit) post :
  y' ≠ y -> t !! y' = Some p -> p !! f = Some v ->
  completes (k v) (<[y := r]> t) post ->
  completes (bind (get y' f) k) (<[y := r]> t) post.
Proof.
  intros Hne Hp Hf (t' & H & Hpost). exists t'. split; [|done].
  by rewrite (bind_some _ _ _ _ _ (get_there y y' f v r p t Hne Hp Hf)).
Qed.

Lemma completes_set_here y f v r t (k : unit -> M A unit) post :
  completes (k tt) (<[y := <[f := v]> r]> t) post ->
  completes (bind (set y f v) k) (<[y := r]> t) post.
Proof.
  intros (t' & H & Hp). exists t'. split; [|done].
  by rewrite (bind_some _ _ _ _ _ (set_here y f v r t)).
Qed.

Lemma completes_set_last y f v r t (post : table A -> Prop) :
  post (<[y := <[f := v]> r]> t) ->
  completes (set y f v) (<[y := r]> t) post.
Proof. intros Hp. eexists. split; [apply set_here | done]. Qed.

(** Bring the record of year [y] to the front. *)
Lemma completes_focus y r (c : M A unit) t post :
  t !! y = Some r ->
  completes c (<[y := r]> t) post -> completes c t post.
Proof. intros H. by rewrite (insert_id t y r H). Qed.

Lemma holds_insert t y r (R R' : Z -> option (gmap string A)) :
  holds t R ->
  (forall y', R' y' = if decide (y = y') then Some r else R y') ->
  holds (<[y := r]> t) R'.
Proof.
  intros H HR y'. rewrite HR, lookup_insert. case_decide; [done | apply H].
Qed.

Lemma by_year_2024 (F : gmap string A) rest : by_year F rest 2024 = Some F.
Proof. done. Qed.

Lemma by_year_later (F : gmap string A) rest (n : nat) :
  (n <= 10)%nat -> by_year F rest (2025 + Z.of_nat n) = Some (rest n).
Proof.
  intros Hn. unfold by_year. rewrite decide_False, decide_True by lia.
  do 2 f_equal. lia.
Qed.

(** Lines 213-214. *)
Lemma initialise_completes :
  completes (A := A) initialise ∅ (fun t => holds t (by_year ∅ (fun _ => ∅))).
Proof.
  pose (I := fun (i : nat) (t : table A) =>
    holds t (fun y => if decide (2024 <= y < 2024 + Z.of_nat i)
                      then Some ∅ else None)).
  destruct (for_each_seqZ I 2024 12 new_record ∅) as (t & Hrun & HI).
  - intros y. rewrite lookup_empty. by rewrite decide_False by lia.
  - intros i t Hi Ht. eexists. split; [reflexivity|].
    intros y. rewrite lookup_insert, (Ht y).
    repeat case_decide; (done || lia).
  - exists t. split; [exact Hrun|].
    intros y. rewrite (HI y). unfold by_year.
    repeat case_decide; (done || lia).
Qed.

(** A loop over [range(2025, 2036)] whose body computes the record of a
    year from the record of the year before. *)
Lemma completes_from_2025 (body : Z -> M A unit) F (ro rn : nat -> gmap string A) t :
  holds t (by_year F ro) ->
  (forall (i : nat) t', (i < 11)%nat ->
     t' !! (2025 + Z.of_nat i) = Some (ro i) ->
     t' !! (2025 + Z.of_nat i - 1) =
       Some (match i with O => F | S j => rn j end) ->
     completes (body (2025 + Z.of_nat i)) t'
       (fun t'' => t'' = <[2025 + Z.of_nat i := rn i]> t')) ->
  completes (for_each (range 2025 2036) body) t
    (fun t' => holds t' (by_year F rn)).
Proof.
  intros Ht Hbody.
  pose (I := fun (i : nat) (t : table A) =>
    holds t (fun y => if decide (2025 <= y < 2025 + Z.of_nat i)
                      then by_year F rn y else by_year F ro y)).
  destruct (for_each_seqZ I 2025 11 body t) as (t' & Hrun & HI).
  - intros y. rewrite decide_False by lia. apply Ht.
  - intros i t' Hi Ht'.
    destruct (Hbody i t' Hi) as (t'' & Hrun & ->).
    + rewrite (Ht' _), decide_False by lia. apply by_year_later. lia.
    + rewrite (Ht' _). destruct i as [|j].
      * by rewrite decide_False by lia.
      * rewrite decide_True by lia.
        replace (2025 + Z.of_nat (S j) - 1) with (2025 + Z.of_nat j) by lia.
        apply by_year_later. lia.
    + exists (<[2025 + Z.of_nat i := rn i]> t'). split; [done|].
      intros y. rewrite lookup_insert. case_decide as Hy.
      * subst y. rewrite decide_True by lia. symmetry.
        apply by_year_later. lia.
      * rewrite (Ht' y). repeat case_decide; (done || lia).
  - exists t'. split; [exact Hrun|].
    intros y. rewrite (HI y). unfold by_year.
    repeat case_decide; (done || lia).
Qed.

(** Lines 307-312 return [vested_shares], and leave the table as it
    is. *)
Lemma completes_checked_vested (G : globals A) y y' prev r p t
    (k : A -> M A unit) post :
  (y' - 1)%Z ≠ y -> t !! (y' - 1)%Z = Some p ->
  p !! "Vested Shares" = Some prev ->
  completes (k (vested_shares G y' prev)) (<[y := r]> t) post ->
  completes (bind (checked_vested_shares G y') k) (<[y := r]> t) post.
Proof.
  intros Hne Hp Hf (t' & H & Hpost). exists t'. split; [|exact Hpost].
  rewrite <- H. unfold vested_shares, checked_vested_shares.
  destruct (invalid_vested G (supplied G y')).
  - unfold bind at 1.
    by rewrite (bind_some _ _ _ _ _
                  (get_there y (y' - 1) _ prev r p t Hne Hp Hf)).
  - reflexivity.
Qed.

Lemma completes_mono (c : M A unit) t (post post' : table A -> Prop) :
  completes c t post -> (forall t', post t' -> post' t') ->
  completes c t post'.
Proof. intros (t' & H & Hp) Himp. exists t'. auto. Qed.

(** A loop over [years] whose body rewrites the record of its year. *)
Lemma completes_all_years (body : Z -> M A unit)
    (upd : gmap string A -> gmap string A) F ro F' rn t :
  holds t (by_year F ro) ->
  (forall y r t',
     completes (body y) (<[y := r]> t') (fun t'' => t'' = <[y := upd r]> t')) ->
  F' = upd F -> (forall n, rn n = upd (ro n)) ->
  completes (for_each years body) t (fun t' => holds t' (by_year F' rn)).
Proof.
  intros Ht Hbody HF Hrn.
  pose (I := fun (i : nat) (t : table A) =>
    holds t (fun y => if decide (2024 <= y < 2024 + Z.of_nat i)
                      then by_year F' rn y else by_year F ro y)).
  destruct (for_each_seqZ I 2024 12 body t) as (t' & Hrun & HI).
  - intros y. rewrite decide_False by lia. apply Ht.
  - intros i t' Hi Ht'.
    assert (exists r, by_year F ro (2024 + Z.of_nat i) = Some r /\
              by_year F' rn (2024 + Z.of_nat i) = Some (upd r))
      as (r & Hr & Hr').
    { unfold by_year. repeat case_decide; try lia; subst F'; eauto.
      rewrite Hrn. eauto. }
    assert (t' !! (2024 + Z.of_nat i) = Some r) as Hcur.
    { rewrite (Ht' _), decide_False by lia. exact Hr. }
    destruct (Hbody (2024 + Z.of_nat i) r t') as (t'' & Hrun & ->).
    rewrite (insert_id _ _ _ Hcur) in Hrun.
    eexists. split; [exact Hrun|].
    intros y. rewrite lookup_insert. case_decide as Hy.
    + subst y. by rewrite decide_True by lia.
    + rewrite (Ht' y). repeat case_decide; (done || lia).
  - exists t'. split; [exact Hrun|].
    intros y. rewrite (HI y). unfold by_year.
    repeat case_decide; (done || lia).
Qed.

(** A loop over [range(2026, 2036)] whose body computes the record of a
    year from the record of the year before. *)
Lemma completes_from_2026 (body : Z -> M A unit) F
    (ro rn : nat -> gmap string A) t :
  holds t (by_year F ro) ->
  ro O = rn O ->
  (forall (i : nat) t', (i < 10)%nat ->
     t' !! (2026 + Z.of_nat i) = Some (ro (S i)) ->
     t' !! (2026 + Z.of_nat i - 1) = Some (rn i) ->
     completes (body (2026 + Z.of_nat i)) t'
       (fun t'' => t'' = <[2026 + Z.of_nat i := rn (S i)]> t')) ->
  completes (for_each (range 2026 2036) body) t
    (fun t' => holds t' (by_year F rn)).
Proof.
  intros Ht H0 Hbody.
  pose (I := fun (i : nat) (t : table A) =>
    holds t (fun y => if decide (2026 <= y < 2026 + Z.of_nat i)
                      then by_year F rn y else by_year F ro y)).
  destruct (for_each_seqZ I 2026 10 body t) as (t' & Hrun & HI).
  - intros y. rewrite decide_False by lia. apply Ht.
  - intros i t' Hi Ht'.
    destruct (Hbody i t' Hi) as (t'' & Hrun & ->).
    + rewrite (Ht' _), decide_False by lia.
      replace (2026 + Z.of_nat i) with (2025 + Z.of_nat (S i)) by lia.
      apply by_year_later. lia.
    + rewrite (Ht' _).
      replace (2026 + Z.of_nat i - 1) with (2025 + Z.of_nat i) by lia.
      destruct i as [|j].
      * rewrite decide_False by lia. by rewrite <- H0.
      * rewrite decide_True by lia. apply by_year_later. lia.
    + exists (<[2026 + Z.of_nat i := rn (S i)]> t'). split; [done|].
      intros y. rewrite lookup_insert. case_decide as Hy.
      * subst y. rewrite decide_True by lia. symmetry.
        replace (2026 + Z.of_nat i) with (2025 + Z.of_nat (S i)) by lia.
        apply by_year_later. lia.
      * rewrite (Ht' y). repeat case_decide; (done || lia).
  - exists t'. split; [exact Hrun|].
    intros y. rewrite (HI y). unfold by_year.
    repeat case_decide; try (done || lia).
    assert (y = 2025) as -> by lia. change (Z.to_nat (2025 - 2025)) with O. by rewrite H0.
Qed.

Lemma holds_2024 t F (ro : nat -> gmap string A) :
  holds t (by_year F ro) -> t !! 2024 = Some F.
Proof. intros H. by rewrite (H 2024). Qed.

Lemma holds_2025 t F (ro : nat -> gmap string A) :
  holds t (by_year F ro) -> t !! 2025 = Some (ro O).
Proof. intros H. by rewrite (H 2025). Qed.

Lemma holds_set_2024 t F F' (ro : nat -> gmap string A) :
  holds t (by_year F ro) -> holds (<[2024 := F']> t) (by_year F' ro).
Proof.
  intros H. eapply holds_insert; [exact H|].
  intros y. unfold by_year. repeat case_decide; (done || lia).
Qed.

Lemma holds_set_2025 t F r (ro rn : nat -> gmap string A) :
  holds t (by_year F ro) ->
  rn O = r -> (forall n, rn (S n) = ro (S n)) ->
  holds (<[2025 := r]> t) (by_year F rn).
Proof.
  intros H H0 HS. eapply holds_insert; [exact H|].
  intros y. unfold by_year. repeat case_decide; try (done || lia).
  - subst y. change (Z.to_nat (2025 - 2025)) with O. by rewrite H0.
  - destruct (Z.to_nat (y - 2025)) as [|n] eqn:E; [lia|]. by rewrite HS.
Qed.

Lemma holds_ext t F F' (ro rn : nat -> gmap string A) :
  holds t (by_year F ro) -> F = F' -> (forall n, ro n = rn n) ->
  holds t (by_year F' rn).
Proof.
  intros H -> Hn y. rewrite (H y). unfold by_year.
  repeat case_decide; try done. by rewrite Hn.
Qed.

End Logic.

Lemma names_differ (a b : string) : String.eqb a b = false -> a ≠ b.
Proof. apply String.eqb_neq. Qed.

(** Look a field up in a record written as a chain of insertions. *)
Ltac find_field :=
  unfold record, zero_common_fields, common_fields_2024, common_fields,
    zero_option_fields, option_fields_2024, option_fields;
  cbn [list_to_map fold_right foldr fst snd app];
  repeat (rewrite lookup_insert_ne by (apply names_differ; reflexivity));
  apply lookup_insert_eq.

(** Run the next statement; [Hprev] is the record of the year before. *)
Ltac step_with Hprev :=
  first
  [ eapply completes_get_here; [find_field |]
  | eapply completes_get_there; [lia | exact Hprev | find_field |]
  | eapply completes_checked_vested; [lia | exact Hprev | find_field |]
  | apply completes_set_here ];
  cbv beta.

Ltac step :=
  first
  [ eapply completes_get_here; [find_field |]
  | apply completes_set_here ];
  cbv beta.

Section Passes.

Context {A : Type} `{NumA : Num A}.
Variable G : globals A.
Variables g cr orr : A.

(** Lines 217-219. *)
Lemma share_price_series_completes t :
  holds t (by_year ∅ (fun _ => ∅)) ->
  completes (share_price_series g) t
    (fun t' => holds t' (by_year (record (share_price g 0) [])
                                 (fun n => record (share_price g (S n)) []))).
Proof.
  intros Ht. unfold share_price_series.
  apply (completes_focus 2024 ∅); [by rewrite (Ht 2024)|].
  apply completes_set_here.
  apply (completes_from_2025 _ (record (share_price g 0) []) (fun _ => ∅)).
  - eapply holds_insert; [exact Ht|].
    intros y. unfold by_year. repeat case_decide; (done || lia).
  - intros i t' Hi Hcur Hprev.
    apply (completes_focus _ _ _ _ _ Hcur).
    eapply completes_get_there; [lia | exact Hprev | destruct i; find_field |].
    apply completes_set_last. reflexivity.
Qed.

(** Lines 222-268. *)
Lemma common_shares_completes t :
  holds t (by_year (record (share_price g 0) [])
                   (fun n => record (share_price g (S n)) [])) ->
  completes (common_shares G cr) t
    (fun t' => holds t' (by_year
       (record (share_price g 0) (common_fields_2024 G))
       (fun n => record (share_price g (S n)) (common_fields G g cr n)))).
Proof.
  intros Ht. unfold common_shares.
  apply completes_bind.
  eapply completes_mono.
  { eapply completes_all_years with
      (F' := record (share_price g 0) zero_common_fields)
      (rn := fun n => record (share_price g (S n)) zero_common_fields);
      [exact Ht | | |].
    - intros y r t'. repeat step. apply completes_set_last. reflexivity.
    - reflexivity.
    - intros n. reflexivity. }
  cbv beta. clear t Ht. intros t Ht.
  apply (completes_focus 2024 _ _ _ _ (holds_2024 _ _ _ Ht)).
  step.
  eapply (completes_focus 2025).
  { rewrite lookup_insert_ne by lia. exact (holds_2025 _ _ _ Ht). }
  repeat step.
  eapply completes_mono.
  { eapply completes_from_2026 with
      (ro := fun n => match n with
                      | O => record (share_price g 1) (common_fields G g cr 0)
                      | S _ => record (share_price g (S n)) zero_common_fields
                      end)
      (rn := fun n => record (share_price g (S n)) (common_fields G g cr n)).
    - eapply holds_set_2025; [eapply holds_set_2024; exact Ht | |].
      + reflexivity.
      + intros n. reflexivity.
    - reflexivity.
    - intros i t' Hi Hcur Hprev.
      apply (completes_focus _ _ _ _ _ Hcur).
      repeat (step_with Hprev).
      apply completes_set_last. reflexivity. }
  cbv beta. intros t' Ht'. exact Ht'.
Qed.

(** Lines 271-339. *)
Lemma option_shares_completes t :
  holds t (by_year
    (record (share_price g 0) (common_fields_2024 G))
    (fun n => record (share_price g (S n)) (common_fields G g cr n))) ->
  completes (option_shares G orr) t
    (fun t' => holds t' (by_year
       (record_2024 G g)
       (fun n => record (share_price g (S n))
                        (common_fields G g cr n ++ option_fields G g orr n)))).
Proof.
  intros Ht. unfold option_shares.
  apply completes_bind.
  eapply completes_mono.
  { eapply completes_all_years with
      (F' := record (share_price g 0)
                    (common_fields_2024 G ++ zero_option_fields))
      (rn := fun n => record (share_price g (S n))
                        (common_fields G g cr n ++ zero_option_fields));
      [exact Ht | | |].
    - intros y r t'. repeat step. apply completes_set_last. reflexivity.
    - reflexivity.
    - intros n. reflexivity. }
  cbv beta. clear t Ht. intros t Ht.
  apply (completes_focus 2024 _ _ _ _ (holds_2024 _ _ _ Ht)).
  step.
  eapply (completes_focus 2025).
  { rewrite lookup_insert_ne by lia. exact (holds_2025 _ _ _ Ht). }
  repeat step.
  eapply completes_from_2026 with
    (ro := fun n =>
       match n with
       | O => record (share_price g 1)
                (common_fields G g cr 0 ++ option_fields G g orr 0)
       | S _ => record (share_price g (S n))
                  (common_fields G g cr n ++ zero_option_fields)
       end).
  - eapply holds_set_2025; [eapply holds_set_2024; exact Ht | |].
    + reflexivity.
    + intros n. reflexivity.
  - reflexivity.
  - intros i t' Hi Hcur Hprev.
    apply (completes_focus _ _ _ _ _ Hcur).
    repeat (step_with Hprev).
    apply completes_set_last. reflexivity.
Qed.

(** Lines 342-343. *)
Lemma combined_values_completes t :
  holds t (by_year
    (record_2024 G g)
    (fun n => record (share_price g (S n))
                (common_fields G g cr n ++ option_fields G g orr n))) ->
  completes combined_values t
    (fun t' => holds t' (by_year (record_2024 G g) (record_of G g cr orr))).
Proof.
  intros Ht. unfold combined_values.
  eapply completes_from_2025; [exact Ht|].
  intros i t' Hi Hcur _.
  apply (completes_focus _ _ _ _ _ Hcur).
  repeat step.
  apply completes_set_last. reflexivity.
Qed.

(** Lines 209-343: the statements run to completion, and the table they
    leave is the recurrence, year by year. *)
Lemma fill_results_completes :
  completes (fill_results G g cr orr) ∅
    (fun t => holds t (by_year (record_2024 G g) (record_of G g cr orr))).
Proof.
  unfold fill_results.
  apply completes_bind.
  eapply completes_mono; [apply initialise_completes|].
  cbv beta. intros t0 H0.
  apply completes_bind.
  eapply completes_mono; [apply share_price_series_completes, H0|].
  cbv beta. intros t1 H1.
  apply completes_bind.
  eapply completes_mono; [apply common_shares_completes, H1|].
  cbv beta. intros t2 H2.
  apply completes_bind.
  eapply completes_mono; [apply option_shares_completes, H2|].
  cbv beta. intros t3 H3.
  apply combined_values_completes, H3.
Qed.

End Passes.

(** [calculate_results] never fails: whatever the numbers and the
    arguments, it returns a table, and the record of every year is the one
    the recurrence gives. *)
Lemma calculate_results_returns {A} `{NumA : Num A} (G : globals A)
    (growth_rate custom_common_redemption custom_option_redemption : option A) :
  exists t,
    calculate_results G growth_rate custom_common_redemption
                      custom_option_redemption = Some t /\
    holds t (by_year (record_2024 G (default (pbt_growth_rate G) growth_rate))
               (record_of G (default (pbt_growth_rate G) growth_rate)
                  (default (common_redemption_rate G) custom_common_redemption)
                  (default (option_redemption_rate G) custom_option_redemption))).
Proof.
  destruct (fill_results_completes G
              (default (pbt_growth_rate G) growth_rate)
              (default (common_redemption_rate G) custom_common_redemption)
              (default (option_redemption_rate G) custom_option_redemption))
    as (t & Hrun & Ht).
  exists t. split; [|exact Ht].
  unfold calculate_results. by rewrite Hrun.
Qed.

(** The fields of the returned table, year by year. *)
Lemma calculate_results_fields {A} `{NumA : Num A} (G : globals A)
    (growth_rate custom_common_redemption custom_option_redemption : option A) :
  let g := default (pbt_growth_rate G) growth_rate in
  let cr := default (common_redemption_rate G) custom_common_redemption in
  let orr := default (option_redemption_rate G) custom_option_redemption in
  exists t,
    calculate_results G growth_rate custom_common_redemption
                      custom_option_redemption = Some t /\
    (forall f, field t 2024 f = record_2024 G g !! f) /\
    (forall (n : nat) f, (n <= 10)%nat ->
       field t (2025 + Z.of_nat n) f = record_of G g cr orr n !! f) /\
    (forall y f, ~ (2024 <= y <= 2035) -> field t y f = None).
Proof.
  intros g cr orr.
  destruct (calculate_results_returns G growth_rate custom_common_redemption
              custom_option_redemption) as (t & Hrun & Ht).
  exists t. split; [exact Hrun|].
  split; [|split].
  - intros f. unfold field. rewrite (Ht 2024), by_year_2024. reflexivity.
  - intros n f Hn. unfold field. rewrite (Ht _), by_year_later by exact Hn.
    reflexivity.
  - intros y f Hy. unfold field. rewrite (Ht y). unfold by_year.
    rewrite decide_False, decide_False by lia. reflexivity.
Qed.

(** A year from 2025 to 2035 by its offset. *)
Lemma year_offset (y : Z) :
  2025 <= y <= 2035 ->
  exists n : nat, (n <= 10)%nat /\ y = 2025 + Z.of_nat n.
Proof. intros Hy. exists (Z.to_nat (y - 2025)). lia. Qed.

(** Read a field of [record_of] or [record_2024]. *)
Ltac read_field := unfold record_of, record_2024; find_field.

(** Read a field and evaluate it. *)
Ltac eval_field :=
  etransitivity; [read_field | vm_compute; reflexivity].

(** ** Arithmetic of the recurrence over the rationals *)

Section Rational.

Local Open Scope Q_scope.

Lemma Qltb_lt (a b : Q) : Qltb a b = true <-> a < b.
Proof.
  unfold Qltb. rewrite negb_true_iff, <- not_true_iff_false, Qle_bool_iff.
  split; [apply Qnot_le_lt | apply Qlt_not_le].
Qed.

Lemma Qltb_ge (a b : Q) : Qltb a b = false <-> b <= a.
Proof.
  unfold Qltb. rewrite negb_false_iff. apply Qle_bool_iff.
Qed.

Lemma pymax_nonneg (x : Q) : 0 <= pymax 0 x.
Proof.
  unfold pymax. cbn [nltb Q_Num]. destruct (Qltb 0 x) eqn:E; [|lra].
  apply Qltb_lt in E. lra.
Qed.

Lemma pymax_cases (x : Q) :
  (0 < x /\ pymax 0 x = x) \/ (x <= 0 /\ pymax 0 x = 0).
Proof.
  unfold pymax. cbn [nltb Q_Num]. destruct (Qltb 0 x) eqn:E.
  - apply Qltb_lt in E. by left.
  - apply Qltb_ge in E. by right.
Qed.

Lemma pymin_cases (a b : Q) :
  (b < a /\ pymin a b = b) \/ (a <= b /\ pymin a b = a).
Proof.
  unfold pymin. cbn [nltb Q_Num]. destruct (Qltb b a) eqn:E.
  - apply Qltb_lt in E. by left.
  - apply Qltb_ge in E. by right.
Qed.

(** Python's [min] and [max] are the rational ones. *)
Lemma pymin_Qmin (a b : Q) : pymin a b = Qmin a b.
Proof.
  unfold pymin, Qmin, GenericMinMax.gmin. cbn [nltb Q_Num].
  destruct (Qltb b a) eqn:E.
  - apply Qltb_lt in E.
    assert ((a ?= b) = Gt) as -> by (apply Qgt_alt; exact E). reflexivity.
  - apply Qltb_ge in E. destruct (a ?= b) eqn:C; try reflexivity.
    apply Qgt_alt in C. lra.
Qed.

Lemma pymax_Qmax (a b : Q) : pymax a b = Qmax a b.
Proof.
  unfold pymax, Qmax, GenericMinMax.gmax. cbn [nltb Q_Num].
  destruct (Qltb a b) eqn:E.
  - apply Qltb_lt in E.
    assert ((a ?= b) = Lt) as -> by (apply Qlt_alt; exact E). reflexivity.
  - apply Qltb_ge in E. destruct (a ?= b) eqn:C; try reflexivity.
    apply Qlt_alt in C. lra.
Qed.

Variable G : globals Q.
Variables g cr orr : Q.

Lemma share_price_S n : share_price g (S n) = share_price g n * (1 + g).
Proof. reflexivity. Qed.

Lemma share_price_pos n : -1 < g -> 0 < share_price g n.
Proof.
  intros Hg. induction n as [|n IH]; [reflexivity|].
  rewrite share_price_S. apply Qmult_lt_0_compat; lra.
Qed.

Lemma share_price_nonneg n : -1 < g -> 0 <= share_price g n.
Proof. intros Hg. apply Qlt_le_weak, share_price_pos, Hg. Qed.

Lemma common_cum_S n :
  common_cum G cr (S n) = common_cum G cr n + common_unsold G cr n * cr.
Proof. reflexivity. Qed.

Lemma common_unsold_S n :
  common_unsold G cr (S n) = total_common_shares G - common_cum G cr (S n).
Proof. reflexivity. Qed.

Lemma common_conservation n :
  common_cum G cr n + common_unsold G cr n == total_common_shares G.
Proof.
  destruct n as [|n].
  - change (0 + total_common_shares G == total_common_shares G). ring.
  - rewrite common_unsold_S. ring.
Qed.

Lemma common_unsold_decay n :
  common_unsold G cr (S n) == common_unsold G cr n * (1 - cr).
Proof.
  rewrite common_unsold_S, common_cum_S.
  rewrite <- (common_conservation n). ring.
Qed.

Lemma common_unsold_nonneg n :
  0 <= cr <= 1 -> 0 <= total_common_shares G -> 0 <= common_unsold G cr n.
Proof.
  intros Hcr Ht. induction n as [|n IH]; [exact Ht|].
  rewrite common_unsold_decay. apply Qmult_le_0_compat; lra.
Qed.

Lemma common_unsold_step n :
  0 <= cr <= 1 -> 0 <= total_common_shares G ->
  common_unsold G cr (S n) <= common_unsold G cr n.
Proof.
  intros Hcr Ht. rewrite common_unsold_decay.
  pose proof (common_unsold_nonneg n Hcr Ht) as Hu.
  assert (0 <= common_unsold G cr n * cr) by (apply Qmult_le_0_compat; lra).
  lra.
Qed.

(** *** Common shares: values *)

Lemma common_cum_nonneg n :
  0 <= cr <= 1 -> 0 <= total_common_shares G -> 0 <= common_cum G cr n.
Proof.
  intros Hcr Ht. induction n as [|n IH]; [apply Qle_refl|].
  rewrite common_cum_S.
  pose proof (common_unsold_nonneg n Hcr Ht).
  assert (0 <= common_unsold G cr n * cr) by (apply Qmult_le_0_compat; lra).
  lra.
Qed.

Lemma common_redeemed_nonneg n :
  0 <= cr <= 1 -> 0 <= total_common_shares G -> 0 <= common_redeemed G cr n.
Proof.
  intros Hcr Ht. destruct n as [|n]; [apply Qle_refl|].
  change (0 <= common_unsold G cr n * cr).
  pose proof (common_unsold_nonneg n Hcr Ht).
  apply Qmult_le_0_compat; lra.
Qed.

Lemma common_price_diff_nonneg n : 0 <= common_price_diff G g n.
Proof. apply pymax_nonneg. Qed.

Lemma common_value_nonneg n :
  0 <= cr <= 1 -> 0 <= total_common_shares G -> 0 <= common_value G g cr n.
Proof.
  intros Hcr Ht. destruct n as [|n]; [apply Qle_refl|].
  change (0 <= common_price_diff G g (S n) * common_redeemed G cr (S n)).
  apply Qmult_le_0_compat;
    [apply common_price_diff_nonneg | by apply common_redeemed_nonneg].
Qed.

Lemma common_cum_value_nonneg n :
  0 <= cr <= 1 -> 0 <= total_common_shares G ->
  0 <= common_cum_value G g cr n.
Proof.
  intros Hcr Ht. induction n as [|n IH]; [apply Qle_refl|].
  change (0 <= common_cum_value G g cr n + common_value G g cr (S n)).
  pose proof (common_value_nonneg (S n) Hcr Ht). lra.
Qed.

Lemma common_unsold_value_nonneg n :
  0 <= cr <= 1 -> 0 <= total_common_shares G ->
  0 <= common_unsold_value G g cr n.
Proof.
  intros Hcr Ht. unfold common_unsold_value.
  change (0 <= common_price_diff G g n * common_unsold G cr n).
  apply Qmult_le_0_compat;
    [apply common_price_diff_nonneg | by apply common_unsold_nonneg].
Qed.

Lemma common_total_nonneg n :
  0 <= cr <= 1 -> 0 <= total_common_shares G -> 0 <= common_total G g cr n.
Proof.
  intros Hcr Ht. destruct n as [|n].
  - apply (common_unsold_value_nonneg O Hcr Ht).
  - change (0 <= common_cum_value G g cr (S n)
                 + common_unsold_value G g cr (S n)).
    pose proof (common_cum_value_nonneg (S n) Hcr Ht).
    pose proof (common_unsold_value_nonneg (S n) Hcr Ht). lra.
Qed.

(** *** The safety check on vested shares *)

Lemma invalid_vested_false e :
  invalid_vested G e = false <->
  exists x, e = Some x /\ 0 <= x <= total_grant_shares G.
Proof.
  destruct e as [x|]; simpl.
  - cbn [nltb nlit Q_Num]. rewrite orb_false_iff, !Qltb_ge. split.
    + intros [H1 H2]. eauto.
    + intros (x' & [= <-] & H). tauto.
  - split; [discriminate | intros (x & [=] & _)].
Qed.

Lemma invalid_vested_true e :
  invalid_vested G e = true <->
  e = None \/ exists x, e = Some x /\ (x < 0 \/ total_grant_shares G < x).
Proof.
  destruct e as [x|]; simpl.
  - cbn [nltb nlit Q_Num]. rewrite orb_true_iff, !Qltb_lt. split.
    + intros H. right. eauto.
    + intros [[=] | (x' & [= <-] & H)]. exact H.
  - split; [by left | done].
Qed.

Lemma vested_2025_range :
  0 <= total_grant_shares G ->
  0 <= vested_2025 G <= total_grant_shares G.
Proof.
  intros Ht. unfold vested_2025.
  destruct (invalid_vested G (supplied_2025 G)) eqn:E.
  - cbn [nlit Q_Num].
    destruct (pymin_cases 60000 (total_grant_shares G)) as [[? ->]|[? ->]];
      lra.
  - apply invalid_vested_false in E as (x & -> & Hx). exact Hx.
Qed.

Lemma vested_shares_range year prev :
  0 <= total_grant_shares G -> 0 <= prev ->
  0 <= vested_shares G year prev <= total_grant_shares G.
Proof.
  intros Ht Hp. unfold vested_shares.
  destruct (invalid_vested G (supplied G year)) eqn:E.
  - cbn [nlit nadd Q_Num].
    destruct (pymin_cases (prev + 5000) (total_grant_shares G))
      as [[? ->]|[? ->]]; lra.
  - apply invalid_vested_false in E as (x & -> & Hx). exact Hx.
Qed.

Lemma vested_range n :
  0 <= total_grant_shares G ->
  0 <= vested G n <= total_grant_shares G.
Proof.
  intros Ht. induction n as [|n IH].
  - by apply vested_2025_range.
  - apply vested_shares_range; [exact Ht | apply IH].
Qed.

Lemma invalid_vested_rejected e :
  invalid_vested G e = true <-> rejected G e.
Proof. apply invalid_vested_true. Qed.

Lemma vested_2025_valid x :
  supplied_2025 G = Some x -> 0 <= x <= total_grant_shares G ->
  vested_2025 G = x.
Proof.
  intros Hs Hx. unfold vested_2025.
  assert (invalid_vested G (supplied_2025 G) = false) as ->
    by (apply invalid_vested_false; eauto).
  by rewrite Hs.
Qed.

Lemma vested_2025_rejected :
  rejected G (supplied_2025 G) ->
  vested_2025 G = Qmin 60000 (total_grant_shares G).
Proof.
  intros Hr. unfold vested_2025.
  apply invalid_vested_rejected in Hr. rewrite Hr. apply pymin_Qmin.
Qed.

Lemma vested_shares_valid year prev x :
  supplied G year = Some x -> 0 <= x <= total_grant_shares G ->
  vested_shares G year prev = x.
Proof.
  intros Hs Hx. unfold vested_shares.
  assert (invalid_vested G (supplied G year) = false) as ->
    by (apply invalid_vested_false; eauto).
  by rewrite Hs.
Qed.

Lemma vested_shares_rejected year prev :
  rejected G (supplied G year) ->
  vested_shares G year prev = Qmin (prev + 5000) (total_grant_shares G).
Proof.
  intros Hr. unfold vested_shares.
  apply invalid_vested_rejected in Hr. rewrite Hr. apply pymin_Qmin.
Qed.

Lemma supplied_present year e :
  vested_shares_input G !! year = Some e -> supplied G year = e.
Proof. intros H. unfold supplied. by rewrite H. Qed.

Lemma supplied_missing year :
  vested_shares_input G !! year = None ->
  supplied G year =
  default (Some 0) (vested_shares_input G !! (year - 1)%Z).
Proof. intros H. unfold supplied. by rewrite H. Qed.

(** *** Options: balances *)

Lemma option_cum_S n :
  option_cum G orr (S n) = option_cum G orr n + vested_unsold G orr n * orr.
Proof. reflexivity. Qed.

Lemma vested_unsold_S n :
  vested_unsold G orr (S n) =
  pymax 0 (vested G (S n) - option_cum G orr (S n)).
Proof. reflexivity. Qed.

Lemma vested_unsold_nonneg n :
  0 <= total_grant_shares G -> 0 <= vested_unsold G orr n.
Proof.
  intros Ht. destruct n as [|n].
  - apply (vested_range O Ht).
  - rewrite vested_unsold_S. apply pymax_nonneg.
Qed.

Lemma option_cum_nonneg n :
  0 <= orr -> 0 <= total_grant_shares G -> 0 <= option_cum G orr n.
Proof.
  intros Ho Ht. induction n as [|n IH]; [apply Qle_refl|].
  rewrite option_cum_S.
  pose proof (vested_unsold_nonneg n Ht).
  assert (0 <= vested_unsold G orr n * orr)
    by (apply Qmult_le_0_compat; lra).
  lra.
Qed.

Lemma vested_unsold_le_vested n :
  0 <= orr -> 0 <= total_grant_shares G ->
  vested_unsold G orr n <= vested G n.
Proof.
  intros Ho Ht. destruct n as [|n]; [apply Qle_refl|].
  rewrite vested_unsold_S.
  pose proof (option_cum_nonneg (S n) Ho Ht).
  pose proof (vested_range (S n) Ht).
  destruct (pymax_cases (vested G (S n) - option_cum G orr (S n)))
    as [[? ->]|[? ->]]; lra.
Qed.

Lemma option_balance_bound n :
  0 <= orr <= 1 -> 0 <= total_grant_shares G ->
  option_cum G orr n + vested_unsold G orr n <= total_grant_shares G.
Proof.
  intros Ho Ht. induction n as [|n IH].
  - change (0 + vested G O <= total_grant_shares G).
    pose proof (vested_range O Ht). lra.
  - assert (option_cum G orr (S n) <= total_grant_shares G) as Hc.
    { rewrite option_cum_S.
      pose proof (vested_unsold_nonneg n Ht).
      assert (vested_unsold G orr n * orr <= vested_unsold G orr n * 1)
        by (apply Qmult_le_l_weak || (rewrite !(Qmult_comm (vested_unsold G orr n));
            apply Qmult_le_compat_r; lra)).
      lra. }
    rewrite vested_unsold_S.
    pose proof (vested_range (S n) Ht).
    destruct (pymax_cases (vested G (S n) - option_cum G orr (S n)))
      as [[? ->]|[? ->]]; lra.
Qed.

Lemma option_unsold_nonneg n :
  0 <= orr <= 1 -> 0 <= total_grant_shares G -> 0 <= option_unsold G orr n.
Proof.
  intros Ho Ht. destruct n as [|n]; [exact Ht|].
  change (0 <= total_grant_shares G - option_cum G orr (S n)).
  pose proof (option_balance_bound (S n) Ho Ht).
  pose proof (vested_unsold_nonneg (S n) Ht). lra.
Qed.

(** *** Options: values *)

Lemma option_redeemed_nonneg n :
  0 <= orr -> 0 <= total_grant_shares G -> 0 <= option_redeemed G orr n.
Proof.
  intros Ho Ht. destruct n as [|n]; [apply Qle_refl|].
  change (0 <= vested_unsold G orr n * orr).
  pose proof (vested_unsold_nonneg n Ht).
  apply Qmult_le_0_compat; lra.
Qed.

Lemma share_price_diff_nonneg n : 0 <= share_price_diff G g n.
Proof. apply pymax_nonneg. Qed.

Lemma option_value_nonneg n :
  0 <= orr -> 0 <= total_grant_shares G -> 0 <= option_value G g orr n.
Proof.
  intros Ho Ht. destruct n as [|n]; [apply Qle_refl|].
  change (0 <= share_price_diff G g (S n) * option_redeemed G orr (S n)).
  apply Qmult_le_0_compat;
    [apply share_price_diff_nonneg | by apply option_redeemed_nonneg].
Qed.

Lemma option_cum_value_nonneg n :
  0 <= orr -> 0 <= total_grant_shares G -> 0 <= option_cum_value G g orr n.
Proof.
  intros Ho Ht. induction n as [|n IH]; [apply Qle_refl|].
  change (0 <= option_cum_value G g orr n + option_value G g orr (S n)).
  pose proof (option_value_nonneg (S n) Ho Ht). lra.
Qed.

Lemma option_unsold_value_nonneg n :
  0 <= total_grant_shares G -> 0 <= option_unsold_value G g orr n.
Proof.
  intros Ht.
  change (0 <= share_price_diff G g n * vested_unsold G orr n).
  apply Qmult_le_0_compat;
    [apply share_price_diff_nonneg | by apply vested_unsold_nonneg].
Qed.

Lemma option_total_nonneg n :
  0 <= orr -> 0 <= total_grant_shares G -> 0 <= option_total G g orr n.
Proof.
  intros Ho Ht. destruct n as [|n].
  - apply (option_unsold_value_nonneg O Ht).
  - change (0 <= option_cum_value G g orr (S n)
                 + option_unsold_value G g orr (S n)).
    pose proof (option_cum_value_nonneg (S n) Ho Ht).
    pose proof (option_unsold_value_nonneg (S n) Ht). lra.
Qed.

Lemma combined_nonneg n :
  0 <= cr <= 1 -> 0 <= total_common_shares G ->
  0 <= orr -> 0 <= total_grant_shares G ->
  0 <= combined G g cr orr n.
Proof.
  intros Hcr Htc Ho Ht.
  change (0 <= common_total G g cr n + option_total G g orr n).
  pose proof (common_total_nonneg n Hcr Htc).
  pose proof (option_total_nonneg n Ho Ht). lra.
Qed.

End Rational.

Create HintDb nonneg discriminated.

#[local] Hint Resolve share_price_nonneg
  common_redeemed_nonneg common_cum_nonneg common_unsold_nonneg
  common_value_nonneg common_cum_value_nonneg common_unsold_value_nonneg
  common_total_nonneg
  vested_unsold_nonneg option_redeemed_nonneg option_cum_nonneg
  option_unsold_nonneg option_value_nonneg option_cum_value_nonneg
  option_unsold_value_nonneg option_total_nonneg combined_nonneg : nonneg.

(** * The properties of the returned table *)

Section Claims.

Local Open Scope Q_scope.

(** Membership in a list of fields written out. *)
Ltac each_field H :=
  repeat (apply elem_of_cons in H as [H | H];
          [apply pair_equal_spec in H as [-> ->] |]);
  try (apply elem_of_nil in H; destruct H).

(** [C5] The share price of 2024 is 6.00, and the share price of every
    year from 2025 to 2035 is the share price of the year before times
    [1 + growth_rate]. *)
Theorem share_price_recurrence (G : globals Q)
    (growth_rate custom_common_redemption custom_option_redemption : option Q) :
  exists t,
    calculate_results G growth_rate custom_common_redemption
                      custom_option_redemption = Some t /\
    field t 2024 "Share Price" = Some 6 /\
    forall y, (2025 <= y <= 2035)%Z ->
      exists p q,
        field t (y - 1) "Share Price" = Some p /\
        field t y "Share Price" = Some q /\
        q = p * (1 + default (pbt_growth_rate G) growth_rate).
Proof.
  destruct (calculate_results_fields G growth_rate custom_common_redemption
              custom_option_redemption) as (t & Hrun & H24 & Hn & _).
  exists t. split; [exact Hrun|]. clear Hrun. split.
  - rewrite H24. read_field.
  - intros y Hy. destruct (year_offset y Hy) as (n & Hle & ->).
    exists (share_price (default (pbt_growth_rate G) growth_rate) n),
           (share_price (default (pbt_growth_rate G) growth_rate) (S n)).
    split; [|split].
    + destruct n as [|n].
      * change (2025 + Z.of_nat 0 - 1)%Z with 2024%Z.
        rewrite H24. read_field.
      * replace (2025 + Z.of_nat (S n) - 1)%Z with (2025 + Z.of_nat n)%Z
          by lia.
        rewrite Hn by lia. read_field.
    + rewrite Hn by exact Hle. read_field.
    + reflexivity.
Qed.

(** [C7] In every year from 2025 to 2035 the combined total is the sum of
    the total common share value and the total grant value. *)
Theorem combined_total_is_sum (G : globals Q)
    (growth_rate custom_common_redemption custom_option_redemption : option Q) :
  exists t,
    calculate_results G growth_rate custom_common_redemption
                      custom_option_redemption = Some t /\
    forall y, (2025 <= y <= 2035)%Z ->
      exists common grant total,
        field t y "Total Common Share Value" = Some common /\
        field t y "Total Grant Value" = Some grant /\
        field t y "Combined Total Value" = Some total /\
        total = common + grant.
Proof.
  destruct (calculate_results_fields G growth_rate custom_common_redemption
              custom_option_redemption) as (t & Hrun & _ & Hn & _).
  exists t. split; [exact Hrun|]. clear Hrun.
  intros y Hy. destruct (year_offset y Hy) as (n & Hle & ->).
  eexists _, _, _. rewrite !Hn by exact Hle.
  split; [read_field | split; [read_field | split; [read_field |]]].
  reflexivity.
Qed.

(** [C4] In every year from 2025 to 2035 the cumulative common shares
    redeemed and the unsold common shares add up to
    [total_common_shares]. *)
Theorem common_shares_conserved (G : globals Q)
    (growth_rate custom_common_redemption custom_option_redemption : option Q) :
  exists t,
    calculate_results G growth_rate custom_common_redemption
                      custom_option_redemption = Some t /\
    forall y, (2025 <= y <= 2035)%Z ->
      exists cum unsold,
        field t y "Cumulative Common Redeemed" = Some cum /\
        field t y "Unsold Common Shares" = Some unsold /\
        cum + unsold == total_common_shares G.
Proof.
  destruct (calculate_results_fields G growth_rate custom_common_redemption
              custom_option_redemption) as (t & Hrun & _ & Hn & _).
  exists t. split; [exact Hrun|]. clear Hrun.
  intros y Hy. destruct (year_offset y Hy) as (n & Hle & ->).
  eexists _, _. rewrite !Hn by exact Hle.
  split; [read_field | split; [read_field |]].
  apply common_conservation.
Qed.

(** [C10] With a common redemption rate in [0, 1] and a non-negative
    number of common shares, the unsold common shares never increase from
    one year to the next, from 2025 to 2035. *)
Theorem unsold_common_non_increasing (G : globals Q)
    (growth_rate custom_common_redemption custom_option_redemption : option Q) :
  0 <= default (common_redemption_rate G) custom_common_redemption <= 1 ->
  0 <= total_common_shares G ->
  exists t,
    calculate_results G growth_rate custom_common_redemption
                      custom_option_redemption = Some t /\
    forall y, (2026 <= y <= 2035)%Z ->
      exists before unsold,
        field t (y - 1) "Unsold Common Shares" = Some before /\
        field t y "Unsold Common Shares" = Some unsold /\
        unsold <= before.
Proof.
  intros Hcr Ht.
  destruct (calculate_results_fields G growth_rate custom_common_redemption
              custom_option_redemption) as (t & Hrun & _ & Hn & _).
  exists t. split; [exact Hrun|]. clear Hrun.
  intros y Hy.
  destruct (year_offset (y - 1)) as (n & Hle & Hyn); [lia|].
  replace y with (2025 + Z.of_nat (S n))%Z by lia.
  replace (2025 + Z.of_nat (S n) - 1)%Z with (2025 + Z.of_nat n)%Z by lia.
  eexists _, _. rewrite !Hn by lia.
  split; [read_field | split; [read_field |]].
  by apply common_unsold_step.
Qed.

(** [C1], as amended: in exact arithmetic, with a growth rate above -1,
    redemption rates in [0, 1], a non-negative number of common shares
    and a positive grant, every field of every yearly record from 2024
    to 2035 is non-negative, the option-side "Unsold Shares" included.
    The records have the fields of [field_names].  (The vested counts
    need no assumption: the safety check of the engine replaces a count
    outside [0, total_grant_shares].)  In binary64 the statement fails
    once the share price overflows: see [overflow_gives_nan]. *)
Theorem fields_non_negative (G : globals Q)
    (growth_rate custom_common_redemption custom_option_redemption : option Q) :
  -1 < default (pbt_growth_rate G) growth_rate ->
  0 <= default (common_redemption_rate G) custom_common_redemption <= 1 ->
  0 <= default (option_redemption_rate G) custom_option_redemption <= 1 ->
  0 <= total_common_shares G ->
  0 < total_grant_shares G ->
  exists t,
    calculate_results G growth_rate custom_common_redemption
                      custom_option_redemption = Some t /\
    (forall y f v, field t y f = Some v -> 0 <= v) /\
    (forall f, f ∈ field_names_2024 -> is_Some (field t 2024 f)) /\
    (forall y f, (2025 <= y <= 2035)%Z -> f ∈ field_names ->
       is_Some (field t y f)).
Proof.
  intros Hg Hcr Hor Htc Htg.
  assert (0 <= total_grant_shares G) as Htg' by lra.
  assert (0 <= default (option_redemption_rate G) custom_option_redemption)
    as Hor' by lra.
  destruct (calculate_results_fields G growth_rate custom_common_redemption
              custom_option_redemption) as (t & Hrun & H24 & Hn & Hout).
  exists t. split; [exact Hrun|]. clear Hrun. split; [|split].
  - intros y f v Hf.
    destruct (decide (y = 2024%Z)) as [-> | Hy].
    { rewrite H24 in Hf. unfold record_2024, record in Hf.
      apply elem_of_list_to_map_2 in Hf.
      unfold common_fields_2024, option_fields_2024 in Hf.
      cbn [app] in Hf. each_field Hf; cbn [nlit Q_Num share_price]; lra. }
    destruct (decide (2025 <= y <= 2035)%Z) as [Hy' | Hy'].
    { destruct (year_offset y Hy') as (n & Hle & ->).
      rewrite Hn in Hf by exact Hle. unfold record_of, record in Hf.
      apply elem_of_list_to_map_2 in Hf.
      unfold common_fields, option_fields in Hf.
      cbn [app] in Hf.
      each_field Hf;
        first [ solve [auto with nonneg] | apply (vested_range G n Htg') ]. }
    rewrite Hout in Hf by lia. inversion Hf.
  - intros f Hf. rewrite H24. unfold field_names_2024 in Hf.
    repeat (apply elem_of_cons in Hf as [-> | Hf]; [eexists; read_field|]).
    apply elem_of_nil in Hf. destruct Hf.
  - intros y f Hy Hf. destruct (year_offset y Hy) as (n & Hle & ->).
    rewrite Hn by exact Hle. unfold field_names, field_names_2024 in Hf.
    cbn [app] in Hf.
    repeat (apply elem_of_cons in Hf as [-> | Hf]; [eexists; read_field|]).
    apply elem_of_nil in Hf. destruct Hf.
Qed.

(** [C9] With a non-negative option redemption rate, and a grant that
    is not negative (the sidebar and the specification have it positive),
    the vested unsold shares of every year from 2025 to 2035 are at most
    the vested shares of that year. *)
Theorem vested_unsold_at_most_vested (G : globals Q)
    (growth_rate custom_common_redemption custom_option_redemption : option Q) :
  0 <= default (option_redemption_rate G) custom_option_redemption ->
  0 <= total_grant_shares G ->
  exists t,
    calculate_results G growth_rate custom_common_redemption
                      custom_option_redemption = Some t /\
    forall y, (2025 <= y <= 2035)%Z ->
      exists vested unsold,
        field t y "Vested Shares" = Some vested /\
        field t y "Vested Unsold Shares" = Some unsold /\
        unsold <= vested.
Proof.
  intros Hor Htg.
  destruct (calculate_results_fields G growth_rate custom_common_redemption
              custom_option_redemption) as (t & Hrun & _ & Hn & _).
  exists t. split; [exact Hrun|]. clear Hrun.
  intros y Hy. destruct (year_offset y Hy) as (n & Hle & ->).
  eexists _, _. rewrite !Hn by exact Hle.
  split; [read_field | split; [read_field |]].
  apply vested_unsold_le_vested; assumption.
Qed.

(** [C2], the counterexample: with a grant of 100,000 and vested counts
    of 60,000, 200,000 and -1 for 2025, 2026 and 2027, the engine uses
    65,000 for 2026 (not 100,000) and 70,000 for 2027 (not 0). *)
Lemma out_of_range_not_clamped :
  exists t,
    calculate_results (out_of_range_schedule 60000) None None None = Some t /\
    total_grant_shares (out_of_range_schedule 60000) = 100000 /\
    vested_shares_input (out_of_range_schedule 60000) !! 2026%Z
      = Some (Some 200000) /\
    field t 2026 "Vested Shares" = Some 65000 /\
    ~ (65000 == 100000) /\
    vested_shares_input (out_of_range_schedule 60000) !! 2027%Z
      = Some (Some (-1)) /\
    field t 2027 "Vested Shares" = Some 70000 /\
    ~ (70000 == 0).
Proof.
  destruct (calculate_results_fields (out_of_range_schedule 60000)
              None None None) as (t & Hrun & _ & Hn & _).
  exists t. split; [exact Hrun|]. clear Hrun.
  split; [reflexivity|]. split; [vm_compute; reflexivity|].
  change 2026%Z with (2025 + Z.of_nat 1)%Z at 1.
  change 2027%Z with (2025 + Z.of_nat 2)%Z at 2.
  rewrite !Hn by lia.
  split; [eval_field|]. split; [unfold Qeq; simpl; lia|].
  split; [vm_compute; reflexivity|].
  split; [eval_field|]. unfold Qeq; simpl; lia.
Qed.

(** [C2], as amended: for every year from 2026 to 2035 with a number
    stored in [vested_shares_input], the engine uses that number when it
    lies in [0, total_grant_shares]; otherwise it uses the vested shares
    of the year before plus 5,000, capped at [total_grant_shares]. *)
Theorem vested_shares_used (G : globals Q)
    (growth_rate custom_common_redemption custom_option_redemption : option Q)
    (y : Z) (x : Q) :
  (2026 <= y <= 2035)%Z ->
  vested_shares_input G !! y = Some (Some x) ->
  exists t,
    calculate_results G growth_rate custom_common_redemption
                      custom_option_redemption = Some t /\
    exists before used,
      field t (y - 1) "Vested Shares" = Some before /\
      field t y "Vested Shares" = Some used /\
      (0 <= x <= total_grant_shares G -> used = x) /\
      (x < 0 \/ total_grant_shares G < x ->
       used = Qmin (before + 5000) (total_grant_shares G)).
Proof.
  intros Hy Hx.
  destruct (calculate_results_fields G growth_rate custom_common_redemption
              custom_option_redemption) as (t & Hrun & _ & Hn & _).
  exists t. split; [exact Hrun|]. clear Hrun.
  destruct (year_offset (y - 1)) as (n & Hle & Hyn); [lia|].
  assert (y = 2026 + Z.of_nat n)%Z as -> by lia.
  exists (vested G n), (vested G (S n)).
  replace (2026 + Z.of_nat n - 1)%Z with (2025 + Z.of_nat n)%Z by lia.
  split; [rewrite Hn by lia; read_field|].
  replace (2026 + Z.of_nat n)%Z with (2025 + Z.of_nat (S n))%Z at 1 by lia.
  split; [rewrite Hn by lia; read_field|].
  apply supplied_present in Hx.
  change (vested G (S n))
    with (vested_shares G (2026 + Z.of_nat n) (vested G n)).
  split.
  - intros Hr. by apply vested_shares_valid.
  - intros Hr. apply vested_shares_rejected. rewrite Hx. right. eauto.
Qed.

(** [C3], the counterexample: with a grant of 100,000 and 200,000 stored
    for 2026, the engine uses 65,000 for 2026 after 60,000 in 2025, and
    55,000 after 50,000: neither the count of the year before nor one
    fixed default. *)
Lemma fallback_adds_5000 :
  exists t1 t2,
    calculate_results (out_of_range_schedule 60000) None None None
      = Some t1 /\
    calculate_results (out_of_range_schedule 50000) None None None
      = Some t2 /\
    field t1 2025 "Vested Shares" = Some 60000 /\
    field t1 2026 "Vested Shares" = Some 65000 /\
    field t2 2025 "Vested Shares" = Some 50000 /\
    field t2 2026 "Vested Shares" = Some 55000 /\
    ~ (65000 == 60000) /\ ~ (55000 == 50000) /\ ~ (65000 == 55000).
Proof.
  destruct (calculate_results_fields (out_of_range_schedule 60000)
              None None None) as (t1 & Hrun1 & _ & H1 & _).
  destruct (calculate_results_fields (out_of_range_schedule 50000)
              None None None) as (t2 & Hrun2 & _ & H2 & _).
  exists t1, t2. split; [exact Hrun1|]. split; [exact Hrun2|].
  clear Hrun1 Hrun2.
  change 2025%Z with (2025 + Z.of_nat 0)%Z.
  change 2026%Z with (2025 + Z.of_nat 1)%Z.
  rewrite !H1, !H2 by lia.
  repeat (split; [eval_field|]).
  repeat split; unfold Qeq; simpl; lia.
Qed.

(** [C3], as amended: with a non-negative grant the engine never fails
    and the vested shares it uses lie in [0, total_grant_shares] in every
    year from 2025 to 2035.  For 2025 it uses 0 when the year is missing
    and [min(60000, total_grant_shares)] when the stored value is
    rejected.  For a later year the value that is checked is the stored
    one or, when the year is missing, the one stored for the year before
    (0 when that is missing too); when the check rejects it the engine
    uses the vested shares of the year before plus 5,000, capped at
    [total_grant_shares], and otherwise it uses the value itself.  A
    value is rejected when it is [None] or outside
    [0, total_grant_shares]. *)
Theorem vested_shares_substituted (G : globals Q)
    (growth_rate custom_common_redemption custom_option_redemption : option Q) :
  0 <= total_grant_shares G ->
  exists t,
    calculate_results G growth_rate custom_common_redemption
                      custom_option_redemption = Some t /\
    (forall y, (2025 <= y <= 2035)%Z ->
       exists used, field t y "Vested Shares" = Some used /\
                    0 <= used <= total_grant_shares G) /\
    (vested_shares_input G !! 2025%Z = None ->
       field t 2025 "Vested Shares" = Some 0) /\
    (forall e, vested_shares_input G !! 2025%Z = Some e -> rejected G e ->
       field t 2025 "Vested Shares"
       = Some (Qmin 60000 (total_grant_shares G))) /\
    (forall x, vested_shares_input G !! 2025%Z = Some (Some x) ->
       0 <= x <= total_grant_shares G ->
       field t 2025 "Vested Shares" = Some x) /\
    (forall y e, (2026 <= y <= 2035)%Z ->
       vested_shares_input G !! y = Some e -> rejected G e ->
       exists before,
         field t (y - 1) "Vested Shares" = Some before /\
         field t y "Vested Shares"
         = Some (Qmin (before + 5000) (total_grant_shares G))) /\
    (forall y x, (2026 <= y <= 2035)%Z ->
       vested_shares_input G !! y = Some (Some x) ->
       0 <= x <= total_grant_shares G ->
       field t y "Vested Shares" = Some x) /\
    (forall y e, (2026 <= y <= 2035)%Z ->
       vested_shares_input G !! y = None ->
       vested_shares_input G !! (y - 1)%Z = Some e -> rejected G e ->
       exists before,
         field t (y - 1) "Vested Shares" = Some before /\
         field t y "Vested Shares"
         = Some (Qmin (before + 5000) (total_grant_shares G))) /\
    (forall y x, (2026 <= y <= 2035)%Z ->
       vested_shares_input G !! y = None ->
       vested_shares_input G !! (y - 1)%Z = Some (Some x) ->
       0 <= x <= total_grant_shares G ->
       field t y "Vested Shares" = Some x) /\
    (forall y, (2026 <= y <= 2035)%Z ->
       vested_shares_input G !! y = None ->
       vested_shares_input G !! (y - 1)%Z = None ->
       field t y "Vested Shares" = Some 0).
Proof.
  intros Htg.
  destruct (calculate_results_fields G growth_rate custom_common_redemption
              custom_option_redemption) as (t & Hrun & _ & Hn & _).
  exists t. split; [exact Hrun|]. clear Hrun.
  assert (forall n : nat, (n <= 10)%nat ->
            field t (2025 + Z.of_nat n) "Vested Shares" = Some (vested G n))
    as Hv by (intros n Hle; rewrite Hn by exact Hle; read_field).
  assert (forall y, (2026 <= y <= 2035)%Z ->
            exists n : nat, (n <= 9)%nat /\ y = (2026 + Z.of_nat n)%Z /\
              field t (y - 1) "Vested Shares" = Some (vested G n) /\
              field t y "Vested Shares"
              = Some (vested_shares G y (vested G n))) as Hlater.
  { intros y Hy. exists (Z.to_nat (y - 2026)).
    split; [lia|]. split; [lia|]. split.
    - replace (y - 1)%Z with (2025 + Z.of_nat (Z.to_nat (y - 2026)))%Z by lia.
      apply Hv. lia.
    - replace y with (2025 + Z.of_nat (S (Z.to_nat (y - 2026))))%Z at 1
        by lia.
      rewrite Hv by lia. cbn [vested]. do 2 f_equal. lia. }
  clear Hn.
  assert (field t 2025 "Vested Shares" = Some (vested G O)) as H2025
    by (apply (Hv O); lia).
  split; [|split; [|split; [|split; [|split; [|split; [|split; [|split]]]]]]].
  - intros y Hy. destruct (year_offset y Hy) as (n & Hle & ->).
    exists (vested G n). split; [by apply Hv | by apply vested_range].
  - intros Hm. rewrite H2025. f_equal.
    apply vested_2025_valid; [|lra].
    unfold supplied_2025. by rewrite Hm.
  - intros e He Hr. rewrite H2025. f_equal.
    apply vested_2025_rejected. unfold supplied_2025. by rewrite He.
  - intros x He Hx. rewrite H2025. f_equal.
    apply vested_2025_valid; [|exact Hx].
    unfold supplied_2025. by rewrite He.
  - intros y e Hy He Hr. destruct (Hlater y Hy) as (n & _ & _ & Hb & Hu).
    exists (vested G n). split; [exact Hb|]. rewrite Hu. f_equal.
    apply vested_shares_rejected. by rewrite (supplied_present G y e He).
  - intros y x Hy He Hx. destruct (Hlater y Hy) as (n & _ & _ & _ & Hu).
    rewrite Hu. f_equal. apply vested_shares_valid; [|exact Hx].
    by apply supplied_present.
  - intros y e Hy Hm Hp Hr. destruct (Hlater y Hy) as (n & _ & _ & Hb & Hu).
    exists (vested G n). split; [exact Hb|]. rewrite Hu. f_equal.
    apply vested_shares_rejected.
    rewrite supplied_missing by exact Hm. by rewrite Hp.
  - intros y x Hy Hm Hp Hx. destruct (Hlater y Hy) as (n & _ & _ & _ & Hu).
    rewrite Hu. f_equal. apply vested_shares_valid; [|exact Hx].
    rewrite supplied_missing by exact Hm. by rewrite Hp.
  - intros y Hy Hm Hp. destruct (Hlater y Hy) as (n & _ & _ & _ & Hu).
    rewrite Hu. f_equal. apply vested_shares_valid; [|lra].
    rewrite supplied_missing by exact Hm. by rewrite Hp.
Qed.

End Claims.

(** ** What the code returns in binary64 *)

Section Binary64.

#[local] Set Warnings "-inexact-float".

Lemma share_price_nan (n : nat) : share_price nan (S n) = nan.
Proof.
  induction n as [|n IH]; [reflexivity|].
  change (share_price nan (S (S n)))
    with (nmul (share_price nan (S n)) (nadd (nlit 1) nan)).
  rewrite IH. reflexivity.
Qed.

Lemma share_price_infinity (n : nat) :
  share_price infinity (S n) = infinity.
Proof.
  induction n as [|n IH]; [reflexivity|].
  change (share_price infinity (S (S n)))
    with (nmul (share_price infinity (S n)) (nadd (nlit 1) infinity)).
  rewrite IH. reflexivity.
Qed.

(** [C1], the counterexample: at the sidebar's defaults with a growth
    rate of 2^700 (which is above -1) and a common redemption rate of 0
    passed as arguments, the share price of 2026 overflows to infinity,
    no common share is redeemed, and the common redemption value of 2026
    is [inf * 0.0], which is NaN and not [>= 0]. *)
Lemma overflow_gives_nan :
  exists t,
    calculate_results binary64_defaults (Some 0x1p700%float) (Some 0%float)
                      None = Some t /\
    (-1 <? 0x1p700)%float = true /\
    field t 2026 "Share Price" = Some infinity /\
    field t 2026 "Common Shares Redeemed" = Some 0%float /\
    field t 2026 "Common Redemption Value" = Some nan /\
    (0 <=? nan)%float = false.
Proof.
  destruct (calculate_results_fields binary64_defaults (Some 0x1p700%float)
              (Some 0%float) None) as (t & Hrun & _ & Hn & _).
  exists t. split; [exact Hrun|]. clear Hrun.
  split; [reflexivity|].
  change 2026%Z with (2025 + Z.of_nat 1)%Z.
  rewrite !Hn by lia.
  split; [eval_field|]. split; [eval_field|]. split; [eval_field|].
  reflexivity.
Qed.

(** [C8], the counterexample: at the sidebar's defaults, which are the
    inputs of the scenario, the share price of 2025 is
    7.199999999999999 and the common redemption value of 2026 is
    9959.999999999998; neither equals 7.20 or 9960.0. *)
Lemma scenario_values_rounded :
  exists t,
    calculate_results binary64_defaults None None None = Some t /\
    field t 2025 "Share Price" = Some 7.199999999999999%float /\
    (7.199999999999999 =? 7.20)%float = false /\
    field t 2026 "Common Redemption Value" = Some 9959.999999999998%float /\
    (9959.999999999998 =? 9960.0)%float = false.
Proof.
  destruct (calculate_results_fields binary64_defaults None None None)
    as (t & Hrun & _ & Hn & _).
  exists t. split; [exact Hrun|]. clear Hrun.
  change 2025%Z with (2025 + Z.of_nat 0)%Z.
  change 2026%Z with (2025 + Z.of_nat 1)%Z.
  rewrite !Hn by lia.
  split; [eval_field|]. split; [reflexivity|].
  split; [eval_field | reflexivity].
Qed.

(** [C8], as amended: in the scenario of the specification the code,
    which computes in binary64, returns a share price of
    7.199999999999999 for 2025, 28,500 unsold common shares for 2026 and
    a common redemption value of 9959.999999999998 for 2026, whatever
    the option side is (the two floats are written as Python prints
    them; to 17 digits they are 7.1999999999999993 and
    9959.9999999999982).  In exact arithmetic the three values are 7.20,
    28,500 and 9,960. *)
Theorem scenario_values :
  (forall (orr strike grant : float) (schedule : gmap Z (option float)),
     exists t,
       calculate_results (binary64_scenario orr strike grant schedule)
                         None None None = Some t /\
       field t 2025 "Share Price" = Some 7.199999999999999%float /\
       field t 2026 "Unsold Common Shares" = Some 28500%float /\
       field t 2026 "Common Redemption Value"
       = Some 9959.999999999998%float) /\
  (forall (orr strike grant : Q) (schedule : gmap Z (option Q)),
     exists t,
       calculate_results (scenario orr strike grant schedule)
                         None None None = Some t /\
       exists price unsold value,
         field t 2025 "Share Price" = Some price /\
         field t 2026 "Unsold Common Shares" = Some unsold /\
         field t 2026 "Common Redemption Value" = Some value /\
         (price == 7.20 /\ unsold == 28500 /\ value == 9960)%Q).
Proof.
  split.
  - intros orr strike grant schedule.
    destruct (calculate_results_fields
                (binary64_scenario orr strike grant schedule) None None None)
      as (t & Hrun & _ & Hn & _).
    exists t. split; [exact Hrun|]. clear Hrun.
    change 2025%Z with (2025 + Z.of_nat 0)%Z.
    change 2026%Z with (2025 + Z.of_nat 1)%Z.
    rewrite !Hn by lia.
    split; [eval_field|]. split; eval_field.
  - intros orr strike grant schedule.
    destruct (calculate_results_fields (scenario orr strike grant schedule)
                None None None) as (t & Hrun & _ & Hn & _).
    exists t. split; [exact Hrun|]. clear Hrun.
    change 2025%Z with (2025 + Z.of_nat 0)%Z.
    change 2026%Z with (2025 + Z.of_nat 1)%Z.
    eexists _, _, _. rewrite !Hn by lia.
    split; [read_field|]. split; [read_field|]. split; [read_field|].
    split; [|split]; vm_compute; reflexivity.
Qed.

(** [C6], the counterexample: with a growth rate that is NaN the engine
    returns a table, and the share price of 2025 in it is NaN. *)
Lemma nan_growth_returns_table :
  exists t,
    calculate_results nan_growth None None None = Some t /\
    is_nan (pbt_growth_rate nan_growth) = true /\
    field t 2025 "Share Price" = Some nan.
Proof.
  destruct (calculate_results_fields nan_growth None None None)
    as (t & Hrun & _ & Hn & _).
  exists t. split; [exact Hrun|]. clear Hrun. split; [reflexivity|].
  change 2025%Z with (2025 + Z.of_nat 0)%Z. rewrite Hn by lia.
  eval_field.
Qed.

(** [C6], as amended: the engine checks no input for finiteness and has
    no error of its own.  On binary64 inputs it returns a table whatever
    the values are; with a growth rate that is NaN the share price of
    every year from 2025 to 2035 is NaN, and with a growth rate that is
    +infinity it is +infinity. *)
Theorem non_finite_input_propagates (G : globals float)
    (growth_rate custom_common_redemption custom_option_redemption
       : option float) :
  exists t,
    calculate_results G growth_rate custom_common_redemption
                      custom_option_redemption = Some t /\
    (default (pbt_growth_rate G) growth_rate = nan ->
     forall y, (2025 <= y <= 2035)%Z ->
       field t y "Share Price" = Some nan) /\
    (default (pbt_growth_rate G) growth_rate = infinity ->
     forall y, (2025 <= y <= 2035)%Z ->
       field t y "Share Price" = Some infinity).
Proof.
  destruct (calculate_results_fields G growth_rate custom_common_redemption
              custom_option_redemption) as (t & Hrun & _ & Hn & _).
  exists t. split; [exact Hrun|]. clear Hrun.
  split.
  - intros Hg y Hy. destruct (year_offset y Hy) as (n & Hle & ->).
    rewrite Hn by exact Hle. rewrite Hg.
    etransitivity; [read_field | f_equal; apply share_price_nan].
  - intros Hg y Hy. destruct (year_offset y Hy) as (n & Hle & ->).
    rewrite Hn by exact Hle. rewrite Hg.
    etransitivity; [read_field | f_equal; apply share_price_infinity].
Qed.

End Binary64.

(** ** The theorems at the sidebar's defaults *)

Section Defaults.

Local Open Scope Q_scope.

Ltac by_arith := unfold Qle, Qlt; simpl; lia.

(** The engine runs: at the defaults, 30,000 - 30,000 * 5/100 common
    shares are unsold in 2026, and 65,000 vested shares are used when
    200,000 are stored for 2026 after 60,000 in 2025. *)
Example default_run :
  (t ← calculate_results default_globals None None None;
   field t 2026 "Unsold Common Shares") = Some (2850000 # 100).
Proof. vm_compute. reflexivity. Qed.

Example out_of_range_run :
  (t ← calculate_results (out_of_range_schedule 60000) None None None;
   field t 2026 "Vested Shares") = Some 65000.
Proof. vm_compute. reflexivity. Qed.

Lemma share_price_recurrence_2030 :
  exists t p q,
    calculate_results default_globals None None None = Some t /\
    field t 2029 "Share Price" = Some p /\
    field t 2030 "Share Price" = Some q /\
    q = p * (1 + (20 # 100)).
Proof.
  destruct (share_price_recurrence default_globals None None None)
    as (t & Hrun & _ & Hy).
  destruct (Hy 2030%Z) as (p & q & Hp & Hq & Heq); [lia|].
  exists t, p, q. split; [exact Hrun|]. split; [exact Hp|].
  split; [exact Hq | exact Heq].
Defined.

Lemma combined_total_is_sum_2030 :
  exists t common grant total,
    calculate_results default_globals None None None = Some t /\
    field t 2030 "Total Common Share Value" = Some common /\
    field t 2030 "Total Grant Value" = Some grant /\
    field t 2030 "Combined Total Value" = Some total /\
    total = common + grant.
Proof.
  destruct (combined_total_is_sum default_globals None None None)
    as (t & Hrun & Hy).
  destruct (Hy 2030%Z) as (c & g & s & Hc & Hg & Hs & Heq); [lia|].
  exists t, c, g, s. split; [exact Hrun|]. split; [exact Hc|].
  split; [exact Hg|]. split; [exact Hs | exact Heq].
Defined.

Lemma common_shares_conserved_2030 :
  exists t cum unsold,
    calculate_results default_globals None None None = Some t /\
    field t 2030 "Cumulative Common Redeemed" = Some cum /\
    field t 2030 "Unsold Common Shares" = Some unsold /\
    cum + unsold == 30000.
Proof.
  destruct (common_shares_conserved default_globals None None None)
    as (t & Hrun & Hy).
  destruct (Hy 2030%Z) as (c & u & Hc & Hu & Heq); [lia|].
  exists t, c, u. split; [exact Hrun|]. split; [exact Hc|].
  split; [exact Hu | exact Heq].
Defined.

Lemma unsold_common_non_increasing_2030 :
  0 <= (5 # 100) <= 1 /\ 0 <= 30000 /\
  exists t before unsold,
    calculate_results default_globals None None None = Some t /\
    field t 2029 "Unsold Common Shares" = Some before /\
    field t 2030 "Unsold Common Shares" = Some unsold /\
    unsold <= before.
Proof.
  split; [split; by_arith|]. split; [by_arith|].
  destruct (unsold_common_non_increasing default_globals None None None)
    as (t & Hrun & Hy); [split; by_arith | by_arith |].
  destruct (Hy 2030%Z) as (b & u & Hb & Hu & Hle); [lia|].
  exists t, b, u. split; [exact Hrun|]. split; [exact Hb|].
  split; [exact Hu | exact Hle].
Defined.

Lemma fields_non_negative_2030 :
  -1 < (20 # 100) /\ 0 <= (5 # 100) <= 1 /\ 0 <= 30000 /\ 0 < 100000 /\
  exists t unsold,
    calculate_results default_globals None None None = Some t /\
    field t 2030 "Unsold Shares" = Some unsold /\
    0 <= unsold.
Proof.
  split; [by_arith|]. split; [split; by_arith|]. split; [by_arith|].
  split; [by_arith|].
  destruct (fields_non_negative default_globals None None None)
    as (t & Hrun & Hpos & _ & Hall);
    [by_arith | split; by_arith | split; by_arith | by_arith | by_arith |].
  destruct (Hall 2030%Z "Unsold Shares") as (u & Hu).
  - lia.
  - unfold field_names, field_names_2024. cbn [app].
    repeat first [apply list_elem_of_here | apply list_elem_of_further].
  - exists t, u. split; [exact Hrun|]. split; [exact Hu|].
    exact (Hpos _ _ _ Hu).
Defined.

Lemma vested_unsold_at_most_vested_2030 :
  0 <= (5 # 100) /\ 0 <= 100000 /\
  exists t vested unsold,
    calculate_results default_globals None None None = Some t /\
    field t 2030 "Vested Shares" = Some vested /\
    field t 2030 "Vested Unsold Shares" = Some unsold /\
    unsold <= vested.
Proof.
  split; [by_arith|]. split; [by_arith|].
  destruct (vested_unsold_at_most_vested default_globals None None None)
    as (t & Hrun & Hy); [by_arith | by_arith |].
  destruct (Hy 2030%Z) as (v & u & Hv & Hu & Hle); [lia|].
  exists t, v, u. split; [exact Hrun|]. split; [exact Hv|].
  split; [exact Hu | exact Hle].
Defined.

Lemma vested_shares_used_2026 :
  (2026 <= 2026 <= 2035)%Z /\
  vested_shares_input default_globals !! 2026%Z = Some (Some 70000) /\
  0 <= 70000 <= total_grant_shares default_globals /\
  exists t,
    calculate_results default_globals None None None = Some t /\
    field t 2026 "Vested Shares" = Some 70000.
Proof.
  split; [lia|]. split; [vm_compute; reflexivity|].
  split; [split; by_arith|].
  destruct (vested_shares_used default_globals None None None 2026 70000)
    as (t & Hrun & b & u & _ & Hu & Hin & _);
    [lia | vm_compute; reflexivity |].
  exists t. split; [exact Hrun|].
  rewrite Hu. f_equal. apply Hin. split; by_arith.
Defined.

(** The schedule of [out_of_range_schedule]: 200,000 stored for 2026 is
    rejected; 2028 is missing and the -1 stored for 2027 is rejected. *)
Lemma vested_shares_substituted_2028 :
  0 <= total_grant_shares (out_of_range_schedule 60000) /\
  rejected (out_of_range_schedule 60000) (Some 200000) /\
  rejected (out_of_range_schedule 60000) (Some (-1)) /\
  exists t before_2026 before_2028 used,
    calculate_results (out_of_range_schedule 60000) None None None
      = Some t /\
    field t 2025 "Vested Shares" = Some before_2026 /\
    field t 2026 "Vested Shares" = Some (Qmin (before_2026 + 5000) 100000) /\
    field t 2027 "Vested Shares" = Some before_2028 /\
    field t 2028 "Vested Shares" = Some (Qmin (before_2028 + 5000) 100000) /\
    field t 2028 "Vested Shares" = Some used /\
    0 <= used <= 100000.
Proof.
  assert (rejected (out_of_range_schedule 60000) (Some 200000)) as H2026
    by (right; exists 200000; split; [reflexivity | right; by_arith]).
  assert (rejected (out_of_range_schedule 60000) (Some (-1))) as H2027
    by (right; exists (-1); split; [reflexivity | left; by_arith]).
  split; [by_arith|]. split; [exact H2026|]. split; [exact H2027|].
  destruct (vested_shares_substituted (out_of_range_schedule 60000)
              None None None)
    as (t & Hrun & Hy & _ & _ & _ & Hr & _ & Hm & _); [by_arith|].
  destruct (Hr 2026%Z (Some 200000)) as (b26 & Hb26 & Hu26);
    [lia | vm_compute; reflexivity | exact H2026 |].
  destruct (Hm 2028%Z (Some (-1))) as (b28 & Hb28 & Hu28);
    [lia | vm_compute; reflexivity | vm_compute; reflexivity | exact H2027 |].
  destruct (Hy 2028%Z) as (u & Hu & Hrange); [lia|].
  exists t, b26, b28, u. split; [exact Hrun|]. split; [exact Hb26|].
  split; [exact Hu26|]. split; [exact Hb28|]. split; [exact Hu28|].
  split; [exact Hu | exact Hrange].
Defined.

Lemma non_finite_input_propagates_2030 :
  default (pbt_growth_rate nan_growth) None = nan /\
  exists t,
    calculate_results nan_growth None None None = Some t /\
    field t 2030 "Share Price" = Some nan.
Proof.
  split; [reflexivity|].
  destruct (non_finite_input_propagates nan_growth None None None)
    as (t & Hrun & Hy & _).
  exists t. split; [exact Hrun|]. apply Hy; [reflexivity | lia].
Defined.

End Defaults.

(** * Further properties of the engine *)

(** Split the membership of a field in a list of fields written out. *)
Ltac split_fields H :=
  repeat (apply elem_of_cons in H as [H | H];
          [apply pair_equal_spec in H as [-> ->] |]);
  try (apply elem_of_nil in H; destruct H).

(** Membership of a name in a list of names written out. *)
Ltac name_listed :=
  repeat first [apply list_elem_of_here | apply list_elem_of_further].

Section Shape.

Context {A : Type} `{NumA : Num A}.

(** [X1] The returned table has a record for each year from 2024 to 2035
    and for no other year.  The record of 2024 has exactly the fields of
    [field_names_2024] (it has no "Combined Total Value"); the record of
    every later year has exactly the fields of [field_names]. *)
Theorem table_shape (G : globals A)
    (growth_rate custom_common_redemption custom_option_redemption : option A) :
  exists t,
    calculate_results G growth_rate custom_common_redemption
                      custom_option_redemption = Some t /\
    (forall y, is_Some (t !! y) <-> 2024 <= y <= 2035) /\
    (forall f r, t !! 2024 = Some r ->
       (is_Some (r !! f) <-> f ∈ field_names_2024)) /\
    (forall y f r, 2025 <= y <= 2035 -> t !! y = Some r ->
       (is_Some (r !! f) <-> f ∈ field_names)).
Proof.
  destruct (calculate_results_returns G growth_rate custom_common_redemption
              custom_option_redemption) as (t & Hrun & Ht).
  exists t. split; [exact Hrun|]. clear Hrun.
  split; [|split].
  - intros y. rewrite (Ht y). unfold by_year.
    destruct (decide (y = 2024)) as [-> | Hy].
    { split; [lia | by eexists]. }
    destruct (decide (2025 <= y <= 2035)) as [Hy' | Hy'].
    { split; [lia | by eexists]. }
    split; [intros [r Hr]; inversion Hr | lia].
  - intros f r Hr. rewrite (Ht 2024), by_year_2024 in Hr.
    injection Hr as <-. split.
    + intros [v Hf]. unfold record_2024, record in Hf.
      apply elem_of_list_to_map_2 in Hf.
      unfold common_fields_2024, option_fields_2024 in Hf.
      cbn [app] in Hf. unfold field_names_2024.
      split_fields Hf; name_listed.
    + intros Hf. unfold field_names_2024 in Hf.
      repeat (apply elem_of_cons in Hf as [-> | Hf]; [eexists; read_field|]).
      apply elem_of_nil in Hf. destruct Hf.
  - intros y f r Hy Hr. destruct (year_offset y Hy) as (n & Hle & ->).
    rewrite (Ht _), by_year_later in Hr by exact Hle.
    injection Hr as <-. split.
    + intros [v Hf]. unfold record_of, record in Hf.
      apply elem_of_list_to_map_2 in Hf.
      unfold common_fields, option_fields in Hf.
      cbn [app] in Hf. unfold field_names, field_names_2024. cbn [app].
      split_fields Hf; name_listed.
    + intros Hf. unfold field_names, field_names_2024 in Hf.
      cbn [app] in Hf.
      repeat (apply elem_of_cons in Hf as [-> | Hf]; [eexists; read_field|]).
      apply elem_of_nil in Hf. destruct Hf.
Qed.

End Shape.


(** ** More arithmetic of the recurrence *)

Section MoreRational.

Local Open Scope Q_scope.

Variable G : globals Q.
Variables g cr orr : Q.

Lemma share_price_power n : share_price g n == 6 * (1 + g) ^ Z.of_nat n.
Proof.
  induction n as [|n IH].
  - change (6 == 6 * 1). ring.
  - rewrite share_price_S, IH, Nat2Z.inj_succ, <- Z.add_1_r.
    rewrite Qpower_plus' by lia. rewrite Qpower_1_r. ring.
Qed.

Lemma share_price_step n : 0 < g -> share_price g n < share_price g (S n).
Proof.
  intros Hg. rewrite share_price_S.
  assert (0 < share_price g n) as Hp by (apply share_price_pos; lra).
  assert (0 < share_price g n * g) by (apply Qmult_lt_0_compat; lra).
  lra.
Qed.

Lemma share_price_step_le n : 0 <= g -> share_price g n <= share_price g (S n).
Proof.
  intros Hg. rewrite share_price_S.
  assert (0 < share_price g n) as Hp by (apply share_price_pos; lra).
  assert (0 <= share_price g n * g) by (apply Qmult_le_0_compat; lra).
  lra.
Qed.

Lemma common_unsold_power n :
  common_unsold G cr n == total_common_shares G * (1 - cr) ^ Z.of_nat n.
Proof.
  induction n as [|n IH].
  - change (total_common_shares G == total_common_shares G * 1). ring.
  - rewrite common_unsold_decay, IH, Nat2Z.inj_succ, <- Z.add_1_r.
    rewrite Qpower_plus' by lia. rewrite Qpower_1_r. ring.
Qed.

Lemma common_cum_power n :
  common_cum G cr n ==
  total_common_shares G - total_common_shares G * (1 - cr) ^ Z.of_nat n.
Proof.
  rewrite <- common_unsold_power.
  pose proof (common_conservation G cr n). lra.
Qed.

End MoreRational.

Section ClosedForms.

Local Open Scope Q_scope.

(** [X2] Years 2024 and 2025 are anchors.  In 2024 the share price is
    6.00, the unsold common shares and the unsold shares are the totals,
    and the vested shares are 0.  In 2025 nothing is redeemed: the
    redeemed and cumulative fields of both classes are 0, the unsold
    balances are still the totals, and the vested unsold shares are the
    vested shares. *)
Theorem anchor_years (G : globals Q)
    (growth_rate custom_common_redemption custom_option_redemption : option Q) :
  exists t,
    calculate_results G growth_rate custom_common_redemption
                      custom_option_redemption = Some t /\
    field t 2024 "Share Price" = Some 6 /\
    field t 2024 "Unsold Common Shares" = Some (total_common_shares G) /\
    field t 2024 "Unsold Shares" = Some (total_grant_shares G) /\
    field t 2024 "Vested Shares" = Some 0 /\
    field t 2025 "Common Shares Redeemed" = Some 0 /\
    field t 2025 "Cumulative Common Redeemed" = Some 0 /\
    field t 2025 "Unsold Common Shares" = Some (total_common_shares G) /\
    field t 2025 "Cumulative Common Redemption Value" = Some 0 /\
    field t 2025 "Redeemed Shares" = Some 0 /\
    field t 2025 "Cumulative Redeemed" = Some 0 /\
    field t 2025 "Unsold Shares" = Some (total_grant_shares G) /\
    field t 2025 "Cumulative Redemption Value" = Some 0 /\
    field t 2025 "Vested Unsold Shares" = field t 2025 "Vested Shares".
Proof.
  destruct (calculate_results_fields G growth_rate custom_common_redemption
              custom_option_redemption) as (t & Hrun & H24 & Hn & _).
  exists t. split; [exact Hrun|]. clear Hrun.
  pose proof (fun f => Hn O f (Nat.le_0_l 10)) as H25.
  change (2025 + Z.of_nat 0)%Z with 2025%Z in H25. clear Hn.
  rewrite !H24, !H25.
  repeat (split; [read_field|]).
  etransitivity; [read_field | symmetry; read_field].
Qed.

(** [X3] In exact arithmetic the share price of every year from 2024 to
    2035 is 6.00 times [1 + growth_rate] to the power of the number of
    years since 2024.  (A property of the recurrence; the rounded
    binary64 results of the code are not covered.) *)
Theorem share_price_closed_form (G : globals Q)
    (growth_rate custom_common_redemption custom_option_redemption : option Q) :
  exists t,
    calculate_results G growth_rate custom_common_redemption
                      custom_option_redemption = Some t /\
    forall y, (2024 <= y <= 2035)%Z ->
      exists p,
        field t y "Share Price" = Some p /\
        p == 6 * (1 + default (pbt_growth_rate G) growth_rate) ^ (y - 2024).
Proof.
  destruct (calculate_results_fields G growth_rate custom_common_redemption
              custom_option_redemption) as (t & Hrun & H24 & Hn & _).
  exists t. split; [exact Hrun|]. clear Hrun.
  intros y Hy.
  exists (share_price (default (pbt_growth_rate G) growth_rate)
                      (Z.to_nat (y - 2024))).
  split.
  - destruct (decide (y = 2024%Z)) as [-> | Hne].
    + rewrite H24. read_field.
    + destruct (year_offset y) as (n & Hle & ->); [lia|].
      rewrite Hn by exact Hle.
      replace (Z.to_nat (2025 + Z.of_nat n - 2024)) with (S n) by lia.
      read_field.
  - rewrite share_price_power. rewrite Z2Nat.id by lia. reflexivity.
Qed.

(** [X4] In exact arithmetic, with a positive growth rate the share price
    rises strictly from each year to the next, from 2024 to 2035.  (A
    property of the recurrence; the rounded binary64 results of the code
    are not covered.) *)
Theorem share_price_increasing (G : globals Q)
    (growth_rate custom_common_redemption custom_option_redemption : option Q) :
  0 < default (pbt_growth_rate G) growth_rate ->
  exists t,
    calculate_results G growth_rate custom_common_redemption
                      custom_option_redemption = Some t /\
    forall y, (2025 <= y <= 2035)%Z ->
      exists before price,
        field t (y - 1) "Share Price" = Some before /\
        field t y "Share Price" = Some price /\
        before < price.
Proof.
  intros Hg.
  destruct (calculate_results_fields G growth_rate custom_common_redemption
              custom_option_redemption) as (t & Hrun & H24 & Hn & _).
  exists t. split; [exact Hrun|]. clear Hrun.
  intros y Hy. destruct (year_offset y Hy) as (n & Hle & ->).
  exists (share_price (default (pbt_growth_rate G) growth_rate) n),
         (share_price (default (pbt_growth_rate G) growth_rate) (S n)).
  split; [|split].
  - destruct n as [|n].
    + change (2025 + Z.of_nat 0 - 1)%Z with 2024%Z. rewrite H24. read_field.
    + replace (2025 + Z.of_nat (S n) - 1)%Z with (2025 + Z.of_nat n)%Z by lia.
      rewrite Hn by lia. read_field.
  - rewrite Hn by exact Hle. read_field.
  - apply share_price_step, Hg.
Qed.

(** [X5] In exact arithmetic the unsold common shares decay
    geometrically: in every year from 2025 to 2035 they are
    [total_common_shares] times [1 - common_redemption_rate] to the power
    of the number of years since 2025, and the cumulative common shares
    redeemed are the rest.  (A property of the recurrence; the rounded
    binary64 results of the code are not covered.) *)
Theorem unsold_common_closed_form (G : globals Q)
    (growth_rate custom_common_redemption custom_option_redemption : option Q) :
  exists t,
    calculate_results G growth_rate custom_common_redemption
                      custom_option_redemption = Some t /\
    forall y, (2025 <= y <= 2035)%Z ->
      exists unsold cum,
        field t y "Unsold Common Shares" = Some unsold /\
        field t y "Cumulative Common Redeemed" = Some cum /\
        unsold ==
          total_common_shares G *
          (1 - default (common_redemption_rate G) custom_common_redemption)
            ^ (y - 2025) /\
        cum == total_common_shares G - unsold.
Proof.
  destruct (calculate_results_fields G growth_rate custom_common_redemption
              custom_option_redemption) as (t & Hrun & _ & Hn & _).
  exists t. split; [exact Hrun|]. clear Hrun.
  intros y Hy. destruct (year_offset y Hy) as (n & Hle & ->).
  eexists _, _. rewrite !Hn by exact Hle.
  split; [read_field|]. split; [read_field|]. split.
  - rewrite common_unsold_power.
    replace (2025 + Z.of_nat n - 2025)%Z with (Z.of_nat n) by lia.
    reflexivity.
  - pose proof (common_conservation G
      (default (common_redemption_rate G) custom_common_redemption) n).
    lra.
Qed.

End ClosedForms.


(** ** Redemption at rate zero, grants under water, bounds *)

Section Balances.

Local Open Scope Q_scope.

Variable G : globals Q.
Variables g cr orr : Q.

Lemma Qmult_zero (a b : Q) : b == 0 -> a * b == 0.
Proof. intros ->. ring. Qed.

Lemma common_total_split n :
  common_total G g cr n ==
  common_cum_value G g cr n + common_unsold_value G g cr n.
Proof.
  destruct n as [|n]; [|reflexivity].
  change (common_unsold_value G g cr 0 == 0 + common_unsold_value G g cr 0).
  ring.
Qed.

Lemma common_unsold_value_eq n :
  common_unsold_value G g cr n = common_price_diff G g n * common_unsold G cr n.
Proof. reflexivity. Qed.

Lemma common_value_S n :
  common_value G g cr (S n) =
  common_price_diff G g (S n) * (common_unsold G cr n * cr).
Proof. reflexivity. Qed.

Lemma common_cum_value_S n :
  common_cum_value G g cr (S n) =
  common_cum_value G g cr n + common_value G g cr (S n).
Proof. reflexivity. Qed.

(** The total common share value changes only with the share price, on
    the shares that were unsold the year before. *)
Lemma common_total_step n :
  common_total G g cr (S n) ==
  common_total G g cr n +
  (common_price_diff G g (S n) - common_price_diff G g n)
  * common_unsold G cr n.
Proof.
  rewrite !common_total_split, !common_unsold_value_eq.
  rewrite common_cum_value_S, common_value_S, common_unsold_decay. ring.
Qed.

Section ZeroCommon.

Hypothesis Hcr : cr == 0.







End ZeroCommon.

Lemma option_value_S n :
  option_value G g orr (S n) =
  share_price_diff G g (S n) * (vested_unsold G orr n * orr).
Proof. reflexivity. Qed.

Lemma option_cum_value_S n :
  option_cum_value G g orr (S n) =
  option_cum_value G g orr n + option_value G g orr (S n).
Proof. reflexivity. Qed.

Lemma option_unsold_value_eq n :
  option_unsold_value G g orr n =
  share_price_diff G g n * vested_unsold G orr n.
Proof. reflexivity. Qed.

Lemma option_total_split n :
  option_total G g orr n ==
  option_cum_value G g orr n + option_unsold_value G g orr n.
Proof.
  destruct n as [|n]; [|reflexivity].
  change (option_unsold_value G g orr 0 == 0 + option_unsold_value G g orr 0).
  ring.
Qed.

Section ZeroOption.

Hypothesis Hor : orr == 0.
Hypothesis Htg : 0 <= total_grant_shares G.



Lemma zero_option_redeemed n : option_redeemed G orr n == 0.
Proof.
  destruct n as [|n]; [reflexivity|].
  change (vested_unsold G orr n * orr == 0). apply Qmult_zero, Hor.
Qed.




End ZeroOption.

(** *** Under water *)

Lemma pymax_under (x : Q) : x <= 0 -> pymax 0 x = 0.
Proof.
  intros Hx. destruct (pymax_cases x) as [[? _]|[_ ->]]; [lra | reflexivity].
Qed.

Lemma common_price_diff_under n :
  share_price g (S n) <= common_purchase_price G ->
  common_price_diff G g n = 0.
Proof.
  intros H. unfold common_price_diff. apply pymax_under.
  cbn [nsub Q_Num]. lra.
Qed.

Lemma share_price_diff_under n :
  share_price g (S n) <= strike_price G -> share_price_diff G g n = 0.
Proof.
  intros H. unfold share_price_diff. apply pymax_under.
  cbn [nsub Q_Num]. lra.
Qed.

Lemma share_price_mono (k n : nat) :
  0 <= g -> (k <= n)%nat -> share_price g k <= share_price g n.
Proof.
  intros Hg Hkn. induction Hkn as [|n Hkn IH]; [apply Qle_refl|].
  pose proof (share_price_step_le g n Hg). lra.
Qed.

Lemma option_cum_value_under n :
  0 <= g -> share_price g (S n) <= strike_price G ->
  option_cum_value G g orr n == 0.
Proof.
  intros Hg. induction n as [|n IH]; intros Hp; [reflexivity|].
  rewrite option_cum_value_S, option_value_S, IH.
  - rewrite share_price_diff_under by exact Hp. ring.
  - pose proof (share_price_step_le g (S n) Hg). lra.
Qed.

Lemma common_cum_value_under n :
  0 <= g -> share_price g (S n) <= common_purchase_price G ->
  common_cum_value G g cr n == 0.
Proof.
  intros Hg. induction n as [|n IH]; intros Hp; [reflexivity|].
  rewrite common_cum_value_S, common_value_S, IH.
  - rewrite common_price_diff_under by exact Hp. ring.
  - pose proof (share_price_step_le g (S n) Hg). lra.
Qed.

(** *** Cumulative fields grow *)






Lemma option_unsold_le_total n :
  0 <= orr -> 0 <= total_grant_shares G ->
  option_unsold G orr n <= total_grant_shares G.
Proof.
  intros Ho Ht. destruct n as [|n]; [apply Qle_refl|].
  change (total_grant_shares G - option_cum G orr (S n)
          <= total_grant_shares G).
  pose proof (option_cum_nonneg G orr (S n) Ho Ht). lra.
Qed.

End Balances.


Section RateComparison.

Local Open Scope Q_scope.

Variable G : globals Q.
Variables g r r' : Q.

Lemma pymax_mono (x y : Q) : x <= y -> pymax 0 x <= pymax 0 y.
Proof.
  intros Hxy.
  destruct (pymax_cases x) as [[? ->]|[? ->]],
           (pymax_cases y) as [[? ->]|[? ->]]; lra.
Qed.

Lemma common_price_diff_step n :
  0 <= g -> common_price_diff G g n <= common_price_diff G g (S n).
Proof.
  intros Hg. unfold common_price_diff. apply pymax_mono.
  pose proof (share_price_step_le g (S n) Hg). cbn [nsub Q_Num]. lra.
Qed.

Lemma Qmult_le_both (a b c d : Q) :
  0 <= a <= b -> 0 <= c <= d -> a * c <= b * d.
Proof.
  intros [Ha Hab] [Hc Hcd].
  apply Qle_trans with (b * c).
  - apply Qmult_le_compat_r; assumption.
  - rewrite !(Qmult_comm b). apply Qmult_le_compat_r; lra.
Qed.

Lemma common_unsold_antitone n :
  0 <= r <= r' -> r' <= 1 -> 0 <= total_common_shares G ->
  common_unsold G r' n <= common_unsold G r n.
Proof.
  intros Hr Hr' Ht. induction n as [|n IH]; [apply Qle_refl|].
  rewrite !common_unsold_decay. apply Qmult_le_both.
  - split; [apply common_unsold_nonneg; lra | exact IH].
  - lra.
Qed.

Lemma common_total_antitone n :
  0 <= g -> 0 <= r <= r' -> r' <= 1 -> 0 <= total_common_shares G ->
  common_total G g r' n <= common_total G g r n.
Proof.
  intros Hg Hr Hr' Ht. induction n as [|n IH]; [apply Qle_refl|].
  rewrite !common_total_step.
  pose proof (common_price_diff_step n Hg).
  assert ((common_price_diff G g (S n) - common_price_diff G g n)
            * common_unsold G r' n
          <= (common_price_diff G g (S n) - common_price_diff G g n)
             * common_unsold G r n).
  { apply Qmult_le_both; [lra|].
    split; [apply common_unsold_nonneg; lra
           | by apply common_unsold_antitone]. }
  lra.
Qed.

Lemma common_total_grows n :
  0 <= g -> 0 <= r <= 1 -> 0 <= total_common_shares G ->
  common_total G g r n <= common_total G g r (S n).
Proof.
  intros Hg Hr Ht. rewrite common_total_step.
  pose proof (common_price_diff_step n Hg).
  pose proof (common_unsold_nonneg G r n Hr Ht).
  assert (0 <= (common_price_diff G g (S n) - common_price_diff G g n)
               * common_unsold G r n)
    by (apply Qmult_le_0_compat; lra).
  lra.
Qed.

End RateComparison.


Section MoreProperties.

Local Open Scope Q_scope.




(** [X8] A holding that is under water carries no value.  In a year from
    2025 to 2035 whose share price is at most the strike price, the
    redemption value and the value of the unsold shares are 0; with a
    non-negative growth rate so are the cumulative redemption value and
    the total grant value.  The same holds for common shares and their
    purchase price. *)
Theorem under_water_no_value (G : globals Q)
    (growth_rate custom_common_redemption custom_option_redemption : option Q) :
  exists t,
    calculate_results G growth_rate custom_common_redemption
                      custom_option_redemption = Some t /\
    forall y price, (2025 <= y <= 2035)%Z ->
      field t y "Share Price" = Some price ->
      (price <= strike_price G ->
         field_is t y "Redemption Value" 0 /\
         field_is t y "Value of Unsold Shares" 0 /\
         (0 <= default (pbt_growth_rate G) growth_rate ->
            field_is t y "Cumulative Redemption Value" 0 /\
            field_is t y "Total Grant Value" 0)) /\
      (price <= common_purchase_price G ->
         field_is t y "Common Redemption Value" 0 /\
         field_is t y "Value of Unsold Common Shares" 0 /\
         (0 <= default (pbt_growth_rate G) growth_rate ->
            field_is t y "Cumulative Common Redemption Value" 0 /\
            field_is t y "Total Common Share Value" 0)).
Proof.
  destruct (calculate_results_fields G growth_rate custom_common_redemption
              custom_option_redemption) as (t & Hrun & _ & Hn & _).
  exists t. split; [exact Hrun|]. clear Hrun.
  set (g := default (pbt_growth_rate G) growth_rate) in *.
  set (cr := default (common_redemption_rate G) custom_common_redemption) in *.
  set (orr := default (option_redemption_rate G) custom_option_redemption) in *.
  intros y price Hy Hp. destruct (year_offset y Hy) as (n & Hle & ->).
  assert (price = share_price g (S n)) as ->.
  { rewrite Hn in Hp by exact Hle.
    assert (record_of G g cr orr n !! "Share Price"
            = Some (share_price g (S n))) as E by read_field.
    rewrite E in Hp. by injection Hp. }
  clear Hp. split.
  - intros Hs. pose proof (share_price_diff_under G g n Hs) as Hd.
    assert (option_value G g orr n == 0) as Hv.
    { destruct n as [|n]; [reflexivity|].
      rewrite option_value_S, Hd. ring. }
    assert (option_unsold_value G g orr n == 0) as Hu
      by (rewrite option_unsold_value_eq, Hd; ring).
    split; [eexists; split; [rewrite Hn by exact Hle; read_field | exact Hv]|].
    split; [eexists; split; [rewrite Hn by exact Hle; read_field | exact Hu]|].
    intros Hg. pose proof (option_cum_value_under G g orr n Hg Hs) as Hc.
    split; [eexists; split; [rewrite Hn by exact Hle; read_field | exact Hc]|].
    eexists; split; [rewrite Hn by exact Hle; read_field|].
    rewrite option_total_split, Hc, Hu. ring.
  - intros Hs. pose proof (common_price_diff_under G g n Hs) as Hd.
    assert (common_value G g cr n == 0) as Hv.
    { destruct n as [|n]; [reflexivity|].
      rewrite common_value_S, Hd. ring. }
    assert (common_unsold_value G g cr n == 0) as Hu
      by (rewrite common_unsold_value_eq, Hd; ring).
    split; [eexists; split; [rewrite Hn by exact Hle; read_field | exact Hv]|].
    split; [eexists; split; [rewrite Hn by exact Hle; read_field | exact Hu]|].
    intros Hg. pose proof (common_cum_value_under G g cr n Hg Hs) as Hc.
    split; [eexists; split; [rewrite Hn by exact Hle; read_field | exact Hc]|].
    eexists; split; [rewrite Hn by exact Hle; read_field|].
    rewrite common_total_split, Hc, Hu. ring.
Qed.

(** [X9] No more is redeemed than is held.  With redemption rates in
    [0, 1] and non-negative share counts, in every year from 2025 to 2035
    the cumulative common shares redeemed and the unsold common shares
    are at most [total_common_shares]; the cumulative redeemed shares and
    the unsold shares of the grant are at most [total_grant_shares]; and
    the vested unsold shares are at most the unsold shares. *)
Theorem holdings_bounded (G : globals Q)
    (growth_rate custom_common_redemption custom_option_redemption : option Q) :
  0 <= default (common_redemption_rate G) custom_common_redemption <= 1 ->
  0 <= default (option_redemption_rate G) custom_option_redemption <= 1 ->
  0 <= total_common_shares G ->
  0 <= total_grant_shares G ->
  exists t,
    calculate_results G growth_rate custom_common_redemption
                      custom_option_redemption = Some t /\
    forall y, (2025 <= y <= 2035)%Z ->
      field_le t y "Cumulative Common Redeemed" (total_common_shares G) /\
      field_le t y "Unsold Common Shares" (total_common_shares G) /\
      field_le t y "Cumulative Redeemed" (total_grant_shares G) /\
      field_le t y "Unsold Shares" (total_grant_shares G) /\
      exists unsold,
        field t y "Unsold Shares" = Some unsold /\
        field_le t y "Vested Unsold Shares" unsold.
Proof.
  intros Hcr Hor Htc Htg.
  destruct (calculate_results_fields G growth_rate custom_common_redemption
              custom_option_redemption) as (t & Hrun & _ & Hn & _).
  exists t. split; [exact Hrun|]. clear Hrun.
  set (cr := default (common_redemption_rate G) custom_common_redemption) in *.
  set (orr := default (option_redemption_rate G) custom_option_redemption) in *.
  intros y Hy. destruct (year_offset y Hy) as (n & Hle & ->).
  pose proof (common_conservation G cr n).
  pose proof (common_unsold_nonneg G cr n Hcr Htc).
  pose proof (common_cum_nonneg G cr n Hcr Htc).
  pose proof (option_balance_bound G orr n Hor Htg).
  pose proof (vested_unsold_nonneg G orr n Htg).
  assert (0 <= orr) as Hor' by lra.
  split; [eexists; split; [rewrite Hn by exact Hle; read_field | lra]|].
  split; [eexists; split; [rewrite Hn by exact Hle; read_field | lra]|].
  split; [eexists; split; [rewrite Hn by exact Hle; read_field | lra]|].
  split; [eexists; split; [rewrite Hn by exact Hle; read_field
                          | by apply option_unsold_le_total]|].
  eexists. split; [rewrite Hn by exact Hle; read_field|].
  eexists. split; [rewrite Hn by exact Hle; read_field|].
  destruct n as [|n].
  - change (vested G 0 <= total_grant_shares G). apply (vested_range G O Htg).
  - change (vested_unsold G orr (S n)
            <= total_grant_shares G - option_cum G orr (S n)). lra.
Qed.

End MoreProperties.


Section Growth.

Local Open Scope Q_scope.



(** [X11] In exact arithmetic redeeming does not change the total common
    share value in the year it happens: from each year to the next
    between 2025 and 2035 the total changes by the change of
    [max(0, price - purchase price)] times the common shares that were
    unsold the year before.  So with a non-negative growth rate, a
    redemption rate in [0, 1] and a non-negative share count the total
    never decreases.  (A property of the recurrence; the rounded
    binary64 results of the code are not covered.) *)
Theorem common_total_value_step (G : globals Q)
    (growth_rate custom_common_redemption custom_option_redemption : option Q) :
  exists t,
    calculate_results G growth_rate custom_common_redemption
                      custom_option_redemption = Some t /\
    forall y, (2026 <= y <= 2035)%Z ->
      exists total_before total price_before price unsold_before,
        field t (y - 1) "Total Common Share Value" = Some total_before /\
        field t y "Total Common Share Value" = Some total /\
        field t (y - 1) "Share Price" = Some price_before /\
        field t y "Share Price" = Some price /\
        field t (y - 1) "Unsold Common Shares" = Some unsold_before /\
        total ==
          total_before +
          (Qmax 0 (price - common_purchase_price G)
           - Qmax 0 (price_before - common_purchase_price G))
          * unsold_before /\
        (0 <= default (pbt_growth_rate G) growth_rate ->
         0 <= default (common_redemption_rate G) custom_common_redemption
           <= 1 ->
         0 <= total_common_shares G ->
         total_before <= total).
Proof.
  destruct (calculate_results_fields G growth_rate custom_common_redemption
              custom_option_redemption) as (t & Hrun & _ & Hn & _).
  exists t. split; [exact Hrun|]. clear Hrun.
  intros y Hy.
  destruct (year_offset (y - 1)) as (n & Hle & Hyn); [lia|].
  replace y with (2025 + Z.of_nat (S n))%Z by lia.
  replace (2025 + Z.of_nat (S n) - 1)%Z with (2025 + Z.of_nat n)%Z by lia.
  eexists _, _, _, _, _.
  split; [rewrite Hn by lia; read_field|].
  split; [rewrite Hn by lia; read_field|].
  split; [rewrite Hn by lia; read_field|].
  split; [rewrite Hn by lia; read_field|].
  split; [rewrite Hn by lia; read_field|].
  split.
  - rewrite common_total_step. unfold common_price_diff.
    rewrite !pymax_Qmax. reflexivity.
  - intros Hg Hcr Htc. by apply common_total_grows.
Qed.

(** [X12] In exact arithmetic, with a non-negative growth rate, redeeming
    common shares faster never pays: of two runs that differ in the
    common redemption rate passed to the engine (both in [0, 1], the
    share count non-negative), the one with the higher rate has the lower
    or equal total common share value in every year from 2025 to 2035,
    and not more unsold common shares.  (A property of the recurrence;
    the rounded binary64 results of the code are not covered.) *)
Theorem higher_redemption_lower_value (G : globals Q)
    (growth_rate custom_option_redemption : option Q) (r r' : Q) :
  0 <= default (pbt_growth_rate G) growth_rate ->
  0 <= r <= r' -> r' <= 1 ->
  0 <= total_common_shares G ->
  exists t t',
    calculate_results G growth_rate (Some r) custom_option_redemption
      = Some t /\
    calculate_results G growth_rate (Some r') custom_option_redemption
      = Some t' /\
    forall y, (2025 <= y <= 2035)%Z ->
      (exists v v',
         field t y "Total Common Share Value" = Some v /\
         field t' y "Total Common Share Value" = Some v' /\ v' <= v) /\
      (exists u u',
         field t y "Unsold Common Shares" = Some u /\
         field t' y "Unsold Common Shares" = Some u' /\ u' <= u).
Proof.
  intros Hg Hr Hr' Htc.
  destruct (calculate_results_fields G growth_rate (Some r)
              custom_option_redemption) as (t & Hrun & _ & Hn & _).
  destruct (calculate_results_fields G growth_rate (Some r')
              custom_option_redemption) as (t' & Hrun' & _ & Hn' & _).
  exists t, t'. split; [exact Hrun|]. split; [exact Hrun'|].
  clear Hrun Hrun'.
  intros y Hy. destruct (year_offset y Hy) as (n & Hle & ->).
  split.
  - eexists _, _.
    split; [rewrite Hn by lia; read_field|].
    split; [rewrite Hn' by lia; read_field|].
    by apply common_total_antitone.
  - eexists _, _.
    split; [rewrite Hn by lia; read_field|].
    split; [rewrite Hn' by lia; read_field|].
    by apply common_unsold_antitone.
Qed.

End Growth.


(** ** What a field depends on *)

Section SameInputs.

Context {A : Type} `{NumA : Num A}.
Variables G G' : globals A.
Variables g cr orr : A.

Section SameCommon.

Hypothesis Htc : total_common_shares G = total_common_shares G'.
Hypothesis Hpp : common_purchase_price G = common_purchase_price G'.

Lemma same_common_balance n : common_balance G cr n = common_balance G' cr n.
Proof.
  induction n as [|n IH]; cbn [common_balance]; [by rewrite Htc|].
  by rewrite IH, Htc.
Qed.

Lemma same_common_price_diff n :
  common_price_diff G g n = common_price_diff G' g n.
Proof. unfold common_price_diff. by rewrite Hpp. Qed.

Lemma same_common_redeemed n :
  common_redeemed G cr n = common_redeemed G' cr n.
Proof.
  destruct n as [|n]; [reflexivity|].
  unfold common_redeemed, common_unsold. by rewrite same_common_balance.
Qed.

Lemma same_common_value n : common_value G g cr n = common_value G' g cr n.
Proof.
  destruct n as [|n]; [reflexivity|].
  unfold common_value.
  by rewrite same_common_price_diff, same_common_redeemed.
Qed.

Lemma same_common_cum_value n :
  common_cum_value G g cr n = common_cum_value G' g cr n.
Proof.
  induction n as [|n IH]; [reflexivity|].
  cbn [common_cum_value]. by rewrite IH, same_common_value.
Qed.

Lemma same_common_unsold_value n :
  common_unsold_value G g cr n = common_unsold_value G' g cr n.
Proof.
  unfold common_unsold_value, common_unsold.
  by rewrite same_common_price_diff, same_common_balance.
Qed.

Lemma same_common_total n : common_total G g cr n = common_total G' g cr n.
Proof.
  destruct n as [|n]; unfold common_total.
  - apply same_common_unsold_value.
  - by rewrite same_common_cum_value, same_common_unsold_value.
Qed.

Lemma same_common_fields n : common_fields G g cr n = common_fields G' g cr n.
Proof.
  unfold common_fields, common_cum, common_unsold.
  by rewrite same_common_redeemed, same_common_balance, same_common_value,
     same_common_cum_value, same_common_unsold_value, same_common_total.
Qed.

Lemma same_common_fields_2024 : common_fields_2024 G = common_fields_2024 G'.
Proof. unfold common_fields_2024. by rewrite Htc. Qed.

End SameCommon.

Section SameOption.

Hypothesis Hsp : strike_price G = strike_price G'.
Hypothesis Htg : total_grant_shares G = total_grant_shares G'.
Hypothesis Hvs : vested_shares_input G = vested_shares_input G'.

Lemma same_invalid_vested e : invalid_vested G e = invalid_vested G' e.
Proof. unfold invalid_vested. by rewrite Htg. Qed.

Lemma same_vested_2025 : vested_2025 G = vested_2025 G'.
Proof.
  unfold vested_2025, supplied_2025.
  by rewrite same_invalid_vested, Hvs, Htg.
Qed.

Lemma same_vested_shares year prev :
  vested_shares G year prev = vested_shares G' year prev.
Proof.
  unfold vested_shares, supplied.
  by rewrite same_invalid_vested, Hvs, Htg.
Qed.

Lemma same_vested n : vested G n = vested G' n.
Proof.
  induction n as [|n IH]; cbn [vested]; [apply same_vested_2025|].
  by rewrite IH, same_vested_shares.
Qed.

Lemma same_option_balance n :
  option_balance G orr n = option_balance G' orr n.
Proof.
  induction n as [|n IH]; cbn [option_balance].
  - by rewrite (same_vested 0).
  - by rewrite IH, (same_vested (S n)).
Qed.

Lemma same_share_price_diff n :
  share_price_diff G g n = share_price_diff G' g n.
Proof. unfold share_price_diff. by rewrite Hsp. Qed.

Lemma same_option_redeemed n :
  option_redeemed G orr n = option_redeemed G' orr n.
Proof.
  destruct n as [|n]; [reflexivity|].
  unfold option_redeemed, vested_unsold. by rewrite same_option_balance.
Qed.

Lemma same_option_unsold n : option_unsold G orr n = option_unsold G' orr n.
Proof.
  destruct n as [|n]; unfold option_unsold; [exact Htg|].
  unfold option_cum. by rewrite same_option_balance, Htg.
Qed.

Lemma same_option_value n : option_value G g orr n = option_value G' g orr n.
Proof.
  destruct n as [|n]; [reflexivity|].
  unfold option_value.
  by rewrite same_share_price_diff, same_option_redeemed.
Qed.

Lemma same_option_cum_value n :
  option_cum_value G g orr n = option_cum_value G' g orr n.
Proof.
  induction n as [|n IH]; [reflexivity|].
  cbn [option_cum_value]. by rewrite IH, same_option_value.
Qed.

Lemma same_option_unsold_value n :
  option_unsold_value G g orr n = option_unsold_value G' g orr n.
Proof.
  unfold option_unsold_value, vested_unsold.
  by rewrite same_share_price_diff, same_option_balance.
Qed.

Lemma same_option_total n : option_total G g orr n = option_total G' g orr n.
Proof.
  destruct n as [|n]; unfold option_total.
  - apply same_option_unsold_value.
  - by rewrite same_option_cum_value, same_option_unsold_value.
Qed.

Lemma same_option_fields n : option_fields G g orr n = option_fields G' g orr n.
Proof.
  unfold option_fields, option_cum, vested_unsold.
  by rewrite same_vested, same_option_balance, same_option_redeemed,
     same_option_unsold, same_option_value, same_option_cum_value,
     same_option_unsold_value, same_option_total.
Qed.

Lemma same_option_fields_2024 : option_fields_2024 G = option_fields_2024 G'.
Proof. unfold option_fields_2024. by rewrite Htg. Qed.

End SameOption.

End SameInputs.


Section Independence.

Context {A : Type} `{NumA : Num A}.

Lemma same_common_cum (G G' : globals A) cr n :
  total_common_shares G = total_common_shares G' ->
  common_cum G cr n = common_cum G' cr n.
Proof. intros H. unfold common_cum. by rewrite (same_common_balance G G'). Qed.

Lemma same_common_unsold (G G' : globals A) cr n :
  total_common_shares G = total_common_shares G' ->
  common_unsold G cr n = common_unsold G' cr n.
Proof.
  intros H. unfold common_unsold. by rewrite (same_common_balance G G').
Qed.

Lemma same_option_cum (G G' : globals A) orr n :
  total_grant_shares G = total_grant_shares G' ->
  vested_shares_input G = vested_shares_input G' ->
  option_cum G orr n = option_cum G' orr n.
Proof.
  intros H1 H2. unfold option_cum. by rewrite (same_option_balance G G').
Qed.

Lemma same_vested_unsold (G G' : globals A) orr n :
  total_grant_shares G = total_grant_shares G' ->
  vested_shares_input G = vested_shares_input G' ->
  vested_unsold G orr n = vested_unsold G' orr n.
Proof.
  intros H1 H2. unfold vested_unsold. by rewrite (same_option_balance G G').
Qed.

(** Two records have the same field. *)
Ltac same_field :=
  etransitivity; [read_field|];
  symmetry; etransitivity; [read_field|];
  symmetry; f_equal.

(** [X13] The share price and the common-share fields do not depend on
    the option side.  Two runs with the same growth rate, common
    redemption rate, [total_common_shares] and [common_purchase_price]
    agree on "Share Price" and on every field of [common_field_names] in
    every year, whatever their strike prices, grants, vesting schedules
    and option redemption rates are. *)
Theorem common_side_independent (G G' : globals A)
    (growth_rate custom_common_redemption custom_option_redemption
     growth_rate' custom_common_redemption' custom_option_redemption'
       : option A) :
  total_common_shares G = total_common_shares G' ->
  common_purchase_price G = common_purchase_price G' ->
  default (pbt_growth_rate G) growth_rate
    = default (pbt_growth_rate G') growth_rate' ->
  default (common_redemption_rate G) custom_common_redemption
    = default (common_redemption_rate G') custom_common_redemption' ->
  exists t t',
    calculate_results G growth_rate custom_common_redemption
                      custom_option_redemption = Some t /\
    calculate_results G' growth_rate' custom_common_redemption'
                      custom_option_redemption' = Some t' /\
    forall y f, f ∈ "Share Price" :: common_field_names ->
      field t y f = field t' y f.
Proof.
  intros Htc Hpp Hg Hcr.
  destruct (calculate_results_fields G growth_rate custom_common_redemption
              custom_option_redemption) as (t & Hrun & H24 & Hn & Hout).
  destruct (calculate_results_fields G' growth_rate' custom_common_redemption'
              custom_option_redemption') as (t' & Hrun' & H24' & Hn' & Hout').
  exists t, t'. split; [exact Hrun|]. split; [exact Hrun'|].
  clear Hrun Hrun'. rewrite <- Hg in H24', Hn'. rewrite <- Hcr in Hn'.
  intros y f Hf. unfold common_field_names in Hf.
  destruct (decide (y = 2024)) as [-> | Hy].
  { rewrite H24, H24'.
    repeat (apply elem_of_cons in Hf as [-> | Hf];
            [same_field; try reflexivity; exact Htc|]).
    apply elem_of_nil in Hf. destruct Hf. }
  destruct (decide (2025 <= y <= 2035)) as [Hy' | Hy'].
  { destruct (year_offset y Hy') as (n & Hle & ->).
    rewrite Hn, Hn' by exact Hle.
    repeat (apply elem_of_cons in Hf as [-> | Hf];
            [same_field; try reflexivity;
             eauto using same_common_redeemed, same_common_cum,
               same_common_unsold, same_common_value, same_common_cum_value,
               same_common_unsold_value, same_common_total|]).
    apply elem_of_nil in Hf. destruct Hf. }
  rewrite Hout, Hout' by lia. reflexivity.
Qed.

(** [X14] The option fields do not depend on the common shares.  Two
    runs with the same growth rate, option redemption rate,
    [strike_price], [total_grant_shares] and vesting schedule agree on
    every field of [option_field_names] in every year, whatever their
    common share counts, purchase prices and common redemption rates
    are. *)
Theorem option_side_independent (G G' : globals A)
    (growth_rate custom_common_redemption custom_option_redemption
     growth_rate' custom_common_redemption' custom_option_redemption'
       : option A) :
  strike_price G = strike_price G' ->
  total_grant_shares G = total_grant_shares G' ->
  vested_shares_input G = vested_shares_input G' ->
  default (pbt_growth_rate G) growth_rate
    = default (pbt_growth_rate G') growth_rate' ->
  default (option_redemption_rate G) custom_option_redemption
    = default (option_redemption_rate G') custom_option_redemption' ->
  exists t t',
    calculate_results G growth_rate custom_common_redemption
                      custom_option_redemption = Some t /\
    calculate_results G' growth_rate' custom_common_redemption'
                      custom_option_redemption' = Some t' /\
    forall y f, f ∈ option_field_names -> field t y f = field t' y f.
Proof.
  intros Hsp Htg Hvs Hg Hor.
  destruct (calculate_results_fields G growth_rate custom_common_redemption
              custom_option_redemption) as (t & Hrun & H24 & Hn & Hout).
  destruct (calculate_results_fields G' growth_rate' custom_common_redemption'
              custom_option_redemption') as (t' & Hrun' & H24' & Hn' & Hout').
  exists t, t'. split; [exact Hrun|]. split; [exact Hrun'|].
  clear Hrun Hrun'. rewrite <- Hg in H24', Hn'. rewrite <- Hor in Hn'.
  intros y f Hf. unfold option_field_names in Hf.
  destruct (decide (y = 2024)) as [-> | Hy].
  { rewrite H24, H24'.
    repeat (apply elem_of_cons in Hf as [-> | Hf];
            [same_field; try reflexivity; exact Htg|]).
    apply elem_of_nil in Hf. destruct Hf. }
  destruct (decide (2025 <= y <= 2035)) as [Hy' | Hy'].
  { destruct (year_offset y Hy') as (n & Hle & ->).
    rewrite Hn, Hn' by exact Hle.
    repeat (apply elem_of_cons in Hf as [-> | Hf];
            [same_field; try reflexivity;
             eauto using same_vested, same_vested_unsold,
               same_option_redeemed, same_option_cum, same_option_unsold,
               same_option_value, same_option_cum_value,
               same_option_unsold_value, same_option_total|]).
    apply elem_of_nil in Hf. destruct Hf. }
  rewrite Hout, Hout' by lia. reflexivity.
Qed.

(** [X15] Rates passed as arguments replace the module-level rates
    altogether: when all three arguments are given, two runs whose
    module-level values differ at most in the three rates return the same
    table. *)
Theorem arguments_override_module_rates (G G' : globals A)
    (growth_rate common_redemption option_redemption : A) :
  total_common_shares G = total_common_shares G' ->
  common_purchase_price G = common_purchase_price G' ->
  strike_price G = strike_price G' ->
  total_grant_shares G = total_grant_shares G' ->
  vested_shares_input G = vested_shares_input G' ->
  calculate_results G (Some growth_rate) (Some common_redemption)
                    (Some option_redemption)
  = calculate_results G' (Some growth_rate) (Some common_redemption)
                      (Some option_redemption).
Proof.
  intros Htc Hpp Hsp Htg Hvs.
  destruct (calculate_results_returns G (Some growth_rate)
              (Some common_redemption) (Some option_redemption))
    as (t & Hrun & Ht).
  destruct (calculate_results_returns G' (Some growth_rate)
              (Some common_redemption) (Some option_redemption))
    as (t' & Hrun' & Ht').
  rewrite Hrun, Hrun'. clear Hrun Hrun'. f_equal.
  cbn [default] in Ht, Ht'.
  apply map_eq. intros y. rewrite (Ht y), (Ht' y).
  unfold by_year, record_2024, record_of, combined.
  rewrite (same_common_fields_2024 G G' Htc),
          (same_option_fields_2024 G G' Htg).
  repeat case_decide; try reflexivity.
  rewrite (same_common_fields G G' _ _ Htc Hpp),
          (same_option_fields G G' _ _ Hsp Htg Hvs),
          (same_common_total G G' _ _ Htc Hpp),
          (same_option_total G G' _ _ Hsp Htg Hvs).
  reflexivity.
Qed.

(** [X16] No subscript of the first run fails, whatever the numbers are,
    and the arithmetic of floats does not raise; so for module-level
    values that are floats (or ints that a float holds exactly) the first
    run returns, the fallback run with fixed rates (10% growth, 5%
    redemption) is never used, and the results that are displayed are
    those of [calculate_results()].  (An int too large for a float, on
    which Python raises [OverflowError], is outside the number types.) *)
Theorem fallback_never_used (G : globals A) :
  displayed_results G = calculate_results G None None None /\
  is_Some (displayed_results G).
Proof.
  destruct (calculate_results_returns G None None None) as (t & Hrun & _).
  unfold displayed_results. rewrite Hrun. split; [reflexivity | by eexists].
Qed.

End Independence.


(** ** The default vesting schedule *)

Section DefaultSchedule.

Local Open Scope Q_scope.

(** The schedule, one assignment after the other. *)
Lemma default_vesting_unfold {A} `{NumA : Num A} (total : A) :
  default_vesting total =
  <[2035%Z := Some (pymin (nlit 100000) total)]>
  (<[2034%Z := Some (pymin (nlit 100000) total)]>
  (<[2033%Z := Some (pymin (nlit 100000) total)]>
  (<[2032%Z := Some (pymin (nlit 100000) total)]>
  (<[2031%Z := Some (pymin (nlit 100000) total)]>
  (<[2030%Z := Some (pymin (nlit 100000) total)]>
  (<[2029%Z := Some (pymin (nlit 100000) total)]>
  (<[2028%Z := Some (pymin (nlit 90000) total)]>
  (<[2027%Z := Some (pymin (nlit 80000) total)]>
  (<[2026%Z := Some (pymin (nlit 70000) total)]>
  (<[2025%Z := Some (pymin (nlit 60000) total)]> ∅)))))))))).
Proof. reflexivity. Qed.

(** The default value of a year: lines 117-123. *)
Lemma default_vesting_lookup {A} `{NumA : Num A} (total : A) (y : Z) :
  default_vesting total !! y =
  if decide (2025 <= y <= 2035)%Z
  then Some (Some (pymin (nlit (default 100000 (default_values !! y))) total))
  else None.
Proof.
  rewrite default_vesting_unfold. case_decide as Hy.
  - assert (y = 2025 \/ y = 2026 \/ y = 2027 \/ y = 2028 \/ y = 2029 \/
            y = 2030 \/ y = 2031 \/ y = 2032 \/ y = 2033 \/ y = 2034 \/
            y = 2035)%Z as Hcases by lia.
    repeat destruct Hcases as [-> | Hcases]; try subst y;
      repeat (rewrite lookup_insert_ne by lia);
      rewrite lookup_insert_eq; reflexivity.
  - repeat (rewrite lookup_insert_ne by lia). apply lookup_empty.
Qed.

Lemma default_value_range (y : Z) :
  60000 <= default 100000 (default_values !! y) <= 100000.
Proof.
  destruct (decide (y = 2025%Z)) as [-> | H1]; [split; vm_compute; discriminate|].
  destruct (decide (y = 2026%Z)) as [-> | H2]; [split; vm_compute; discriminate|].
  destruct (decide (y = 2027%Z)) as [-> | H3]; [split; vm_compute; discriminate|].
  destruct (decide (y = 2028%Z)) as [-> | H4]; [split; vm_compute; discriminate|].
  destruct (decide (y = 2029%Z)) as [-> | H5]; [split; vm_compute; discriminate|].
  unfold default_values. cbn [list_to_map foldr fst snd].
  repeat (rewrite lookup_insert_ne by lia). rewrite lookup_empty.
  split; vm_compute; discriminate.
Qed.

Lemma default_value_grows (y : Z) :
  default 100000 (default_values !! (y - 1)%Z)
  <= default 100000 (default_values !! y) \/ (y <= 2025)%Z.
Proof.
  destruct (decide (y <= 2025)%Z) as [Hy | Hy]; [by right | left].
  destruct (decide (y = 2026%Z)) as [-> | H2]; [vm_compute; discriminate|].
  destruct (decide (y = 2027%Z)) as [-> | H3]; [vm_compute; discriminate|].
  destruct (decide (y = 2028%Z)) as [-> | H4]; [vm_compute; discriminate|].
  destruct (decide (y = 2029%Z)) as [-> | H5]; [vm_compute; discriminate|].
  assert (default_values !! y = None) as ->.
  { unfold default_values. cbn [list_to_map foldr fst snd].
    repeat (rewrite lookup_insert_ne by lia). apply lookup_empty. }
  apply default_value_range.
Qed.

Lemma Qmin_both_le (a b t : Q) : a <= b -> Qmin a t <= Qmin b t.
Proof.
  intros Hab. apply Q.min_glb.
  - apply Qle_trans with a; [apply Q.le_min_l | exact Hab].
  - apply Q.le_min_r.
Qed.

(** [X17] The default vesting schedule has an entry for each year from
    2025 to 2035 and for no other year.  The entry of a year is
    [min(d, total_grant_shares)], where [d] is 60,000 to 100,000 for 2025
    to 2029 and 100,000 afterwards; it never exceeds
    [total_grant_shares], it is non-negative when [total_grant_shares]
    is, and it never decreases from one year to the next. *)
Theorem default_vesting_schedule (total : Q) :
  (forall y, ~ (2025 <= y <= 2035)%Z -> default_vesting total !! y = None) /\
  (forall y, (2025 <= y <= 2035)%Z ->
     exists v,
       default_vesting total !! y = Some (Some v) /\
       v = Qmin (default 100000 (default_values !! y)) total /\
       v <= total /\ (0 <= total -> 0 <= v)) /\
  (forall y, (2026 <= y <= 2035)%Z ->
     exists before v,
       default_vesting total !! (y - 1)%Z = Some (Some before) /\
       default_vesting total !! y = Some (Some v) /\
       before <= v).
Proof.
  split; [|split].
  - intros y Hy. rewrite default_vesting_lookup. by rewrite decide_False.
  - intros y Hy. eexists. split; [|split; [|split]].
    + rewrite default_vesting_lookup. by rewrite decide_True.
    + apply pymin_Qmin.
    + rewrite pymin_Qmin. apply Q.le_min_r.
    + intros Ht. rewrite pymin_Qmin. apply Q.min_glb; [|exact Ht].
      pose proof (default_value_range y). cbn [nlit Q_Num]. lra.
  - intros y Hy. eexists _, _. split; [|split].
    + rewrite default_vesting_lookup. by rewrite decide_True by lia.
    + rewrite default_vesting_lookup. by rewrite decide_True by lia.
    + rewrite !pymin_Qmin. apply Qmin_both_le.
      destruct (default_value_grows y) as [H | H]; [exact H | lia].
Qed.

(** [X18] The engine takes the default schedule as it is.  With
    [vested_shares_input] the default schedule of a non-negative
    [total_grant_shares], the safety check rejects no year, and the
    vested shares of every year from 2025 to 2035 are the entry of the
    schedule. *)
Theorem default_schedule_used (G : globals Q)
    (growth_rate custom_common_redemption custom_option_redemption : option Q) :
  vested_shares_input G = default_vesting (total_grant_shares G) ->
  0 <= total_grant_shares G ->
  exists t,
    calculate_results G growth_rate custom_common_redemption
                      custom_option_redemption = Some t /\
    forall y, (2025 <= y <= 2035)%Z ->
      field t y "Vested Shares"
      = Some (Qmin (default 100000 (default_values !! y))
                   (total_grant_shares G)).
Proof.
  intros Hvs Htg.
  destruct (calculate_results_fields G growth_rate custom_common_redemption
              custom_option_redemption) as (t & Hrun & _ & Hn & _).
  exists t. split; [exact Hrun|]. clear Hrun.
  assert (forall y, (2025 <= y <= 2035)%Z ->
            vested_shares_input G !! y
            = Some (Some (Qmin (default 100000 (default_values !! y))
                               (total_grant_shares G)))) as Hm.
  { intros y Hy. rewrite Hvs, default_vesting_lookup.
    rewrite decide_True by lia. by rewrite pymin_Qmin. }
  assert (forall y,
            0 <= Qmin (default 100000 (default_values !! y))
                      (total_grant_shares G) <= total_grant_shares G) as Hr.
  { intros y. pose proof (default_value_range y). split.
    - apply Q.min_glb; lra.
    - apply Q.le_min_r. }
  intros y Hy. destruct (year_offset y Hy) as (n & Hle & ->).
  rewrite Hn by exact Hle.
  etransitivity; [read_field|]. f_equal.
  destruct n as [|n].
  - apply vested_2025_valid; [|apply Hr].
    unfold supplied_2025. by rewrite (Hm 2025%Z) by lia.
  - cbn [vested]. replace (2025 + Z.of_nat (S n))%Z
      with (2026 + Z.of_nat n)%Z by lia.
    apply vested_shares_valid; [|apply Hr].
    apply supplied_present. apply Hm. lia.
Qed.

End DefaultSchedule.


(** ** The check of custom vesting values *)

Section Validation.

Context {A : Type} `{NumA : Num A}.
Variable m : gmap Z (option A).

(** The years of the schedule, and a number for each. *)
Hypothesis Hin : forall y, 2025 <= y <= 2035 -> is_Some (number_at m y).
Hypothesis Hout : forall y, ~ (2025 <= y <= 2035) -> m !! y = None.

Lemma schedule_years (y : Z) : is_Some (m !! y) <-> 2025 <= y <= 2035.
Proof.
  split.
  - intros Hy. destruct (decide (2025 <= y <= 2035)) as [H | H]; [exact H|].
    rewrite (Hout y H) in Hy. by destruct Hy.
  - intros Hy. destruct (Hin y Hy) as [x Hx]. unfold number_at in Hx.
    destruct (m !! y); [by eexists | inversion Hx].
Qed.

Lemma sorted_years_range :
  merge_sort Z.le ((map_to_list m).*1) = seqZ 2025 11.
Proof.
  apply (Sorted_unique Z.le).
  - apply Sorted_merge_sort; apply _.
  - change (seqZ 2025 11)
      with [2025; 2026; 2027; 2028; 2029; 2030; 2031; 2032; 2033; 2034; 2035].
    repeat (constructor; try lia).
  - rewrite merge_sort_Permutation.
    apply NoDup_Permutation;
      [apply NoDup_fst_map_to_list | apply NoDup_seqZ |].
    intros y. rewrite elem_of_seqZ, list_elem_of_fmap. split.
    + intros ([y' e] & -> & He). apply elem_of_map_to_list in He.
      assert (2025 <= y' <= 2035) by (apply schedule_years; by eexists).
      simpl. lia.
    + intros Hy. destruct (proj2 (schedule_years y)) as [e He]; [lia|].
      exists (y, e). split; [reflexivity | by apply elem_of_map_to_list].
Qed.

Lemma number_at_stored (y : Z) :
  2025 <= y <= 2035 -> number_at m y = Some (stored m y).
Proof. intros Hy. unfold stored. by destruct (Hin y Hy) as [x ->]. Qed.

Lemma vesting_warnings_omap :
  vesting_warnings m = Some (omap (warning_of m) (seq 1 10)).
Proof.
  unfold vesting_warnings. rewrite sorted_years_range.
  change (length (seqZ 2025 11) - 1)%nat with 10%nat.
  assert (forall k, (k <= 10)%nat ->
    foldl (fun (warnings : option (list (Z * Z))) (i : nat) =>
             shown ← warnings;
             current_year ← seqZ 2025 11 !! i;
             prev_year ← seqZ 2025 11 !! (i - 1)%nat;
             current ← number_at m current_year;
             prev ← number_at m prev_year;
             Some (if nltb current prev
                   then (shown ++ [(current_year, prev_year)])%list
                   else shown))
          (Some []) (seq 1 k)
    = Some (omap (warning_of m) (seq 1 k))) as Hfold.
  { induction k as [|k IH]; intros Hk; [reflexivity|].
    rewrite seq_S, foldl_app, IH by lia. cbn [foldl Nat.add].
    rewrite omap_app. cbn [mbind option_bind].
    rewrite (lookup_seqZ_lt 2025 11 (S k)) by lia.
    replace (S k - 1)%nat with k by lia.
    rewrite (lookup_seqZ_lt 2025 11 k) by lia.
    cbn [mbind option_bind].
    rewrite (number_at_stored (2025 + Z.of_nat (S k))) by lia.
    rewrite (number_at_stored (2025 + Z.of_nat k)) by lia.
    cbn [mbind option_bind].
    change (omap (warning_of m) [S k])
      with (match warning_of m (S k) with Some w => [w] | None => [] end).
    assert (warning_of m (S k)
            = if nltb (stored m (2025 + Z.of_nat (S k)))
                      (stored m (2025 + Z.of_nat k))
              then Some (2025 + Z.of_nat (S k), 2025 + Z.of_nat k)
              else None) as ->.
    { unfold warning_of.
      by replace (2025 + Z.of_nat (S k) - 1) with (2025 + Z.of_nat k) by lia. }
    destruct (nltb _ _); [reflexivity|].
    by rewrite app_nil_r. }
  apply Hfold. lia.
Qed.

Lemma vesting_warnings_members (current_year prev_year : Z) :
  (current_year, prev_year) ∈ omap (warning_of m) (seq 1 10) <->
  2026 <= current_year <= 2035 /\ prev_year = current_year - 1 /\
  nltb (stored m current_year) (stored m prev_year) = true.
Proof.
  rewrite list_elem_of_omap. split.
  - intros (i & Hi & Hw). apply elem_of_seq in Hi. unfold warning_of in Hw.
    destruct (nltb _ _) eqn:E; [|inversion Hw].
    injection Hw as <- <-. split; [lia|]. split; [reflexivity | exact E].
  - intros (Hy & -> & Hlt). exists (Z.to_nat (current_year - 2025)).
    split; [apply elem_of_seq; lia|]. unfold warning_of.
    replace (2025 + Z.of_nat (Z.to_nat (current_year - 2025)))
      with current_year by lia.
    by rewrite Hlt.
Qed.

End Validation.

Section ValidationRational.

Local Open Scope Q_scope.

(** [X19] The check of custom vesting values.  For a schedule that holds
    a number for each year from 2025 to 2035 and nothing else, the check
    ends, and it warns about the pair (year, year - 1) exactly when the
    year is one of 2026 to 2035 and its number is less than the number
    of the year before. *)
Theorem vesting_warnings_spec (vested_shares_input : gmap Z (option Q)) :
  (forall y, (2025 <= y <= 2035)%Z ->
     is_Some (number_at vested_shares_input y)) ->
  (forall y, ~ (2025 <= y <= 2035)%Z -> vested_shares_input !! y = None) ->
  exists warnings,
    vesting_warnings vested_shares_input = Some warnings /\
    forall current_year prev_year,
      (current_year, prev_year) ∈ warnings <->
      (2026 <= current_year <= 2035)%Z /\
      prev_year = (current_year - 1)%Z /\
      exists current prev,
        number_at vested_shares_input current_year = Some current /\
        number_at vested_shares_input prev_year = Some prev /\
        current < prev.
Proof.
  intros Hin Hout. eexists. split; [by apply vesting_warnings_omap|].
  intros c p. rewrite vesting_warnings_members by assumption.
  cbn [nltb Q_Num]. rewrite Qltb_lt. split.
  - intros (Hc & -> & Hlt). split; [exact Hc|]. split; [reflexivity|].
    exists (stored vested_shares_input c),
           (stored vested_shares_input (c - 1)).
    split; [apply number_at_stored; [exact Hin | lia]|].
    split; [apply number_at_stored; [exact Hin | lia] | exact Hlt].
  - intros (Hc & -> & vc & vp & Hvc & Hvp & Hlt).
    split; [exact Hc|]. split; [reflexivity|].
    unfold stored. by rewrite Hvc, Hvp.
Qed.

(** [X20] The check never warns about the default schedule, whatever
    [total_grant_shares] is. *)
Theorem default_schedule_never_warns (total_grant_shares : Q) :
  vesting_warnings (default_vesting total_grant_shares) = Some [].
Proof.
  assert (forall y, (2025 <= y <= 2035)%Z ->
            number_at (default_vesting total_grant_shares) y
            = Some (Qmin (default 100000 (default_values !! y))
                         total_grant_shares)) as Hnum.
  { intros y Hy. unfold number_at. rewrite default_vesting_lookup.
    rewrite decide_True by exact Hy. by rewrite pymin_Qmin. }
  assert (forall y, (2025 <= y <= 2035)%Z ->
            is_Some (number_at (default_vesting total_grant_shares) y))
    as Hin by (intros y Hy; rewrite Hnum by exact Hy; by eexists).
  assert (forall y, ~ (2025 <= y <= 2035)%Z ->
            default_vesting total_grant_shares !! y = None) as Hout.
  { intros y Hy. rewrite default_vesting_lookup. by rewrite decide_False. }
  rewrite vesting_warnings_omap by assumption. f_equal.
  destruct (omap _ _) as [|[c p] l] eqn:E; [reflexivity|].
  assert ((c, p) ∈ omap (warning_of (default_vesting total_grant_shares))
                        (seq 1 10)) as Hw
    by (rewrite E; apply list_elem_of_here).
  apply vesting_warnings_members in Hw as (Hc & -> & Hlt);
    [|assumption..].
  cbn [nltb Q_Num] in Hlt. apply Qltb_lt in Hlt. unfold stored in Hlt.
  rewrite !Hnum in Hlt by lia. cbn [default] in Hlt.
  assert (Qmin (default 100000 (default_values !! (c - 1)%Z))
               total_grant_shares
          <= Qmin (default 100000 (default_values !! c)) total_grant_shares)
    as Hle.
  { apply Qmin_both_le.
    destruct (default_value_grows c) as [H | H]; [exact H | lia]. }
  exfalso. exact (Qlt_not_le _ _ Hlt Hle).
Qed.

End ValidationRational.


(** ** The further properties at the sidebar's defaults *)

Section MoreDefaults.

Local Open Scope Q_scope.

Ltac by_arith := unfold Qle, Qlt; simpl; lia.
Ltac listed :=
  repeat first [apply list_elem_of_here | apply list_elem_of_further].

Lemma share_price_closed_form_2030 :
  exists t p,
    calculate_results default_globals None None None = Some t /\
    field t 2030 "Share Price" = Some p /\
    p == 6 * (1 + (20 # 100)) ^ 6.
Proof.
  destruct (share_price_closed_form default_globals None None None)
    as (t & Hrun & Hy).
  destruct (Hy 2030%Z) as (p & Hp & Heq); [lia|].
  exists t, p. split; [exact Hrun|]. split; [exact Hp | exact Heq].
Defined.

Lemma share_price_increasing_2030 :
  0 < (20 # 100) /\
  exists t before price,
    calculate_results default_globals None None None = Some t /\
    field t 2029 "Share Price" = Some before /\
    field t 2030 "Share Price" = Some price /\
    before < price.
Proof.
  split; [by_arith|].
  destruct (share_price_increasing default_globals None None None)
    as (t & Hrun & Hy); [by_arith|].
  destruct (Hy 2030%Z) as (b & p & Hb & Hp & Hlt); [lia|].
  exists t, b, p. split; [exact Hrun|]. split; [exact Hb|].
  split; [exact Hp | exact Hlt].
Defined.

Lemma unsold_common_closed_form_2030 :
  exists t unsold,
    calculate_results default_globals None None None = Some t /\
    field t 2030 "Unsold Common Shares" = Some unsold /\
    unsold == 30000 * (1 - (5 # 100)) ^ 5.
Proof.
  destruct (unsold_common_closed_form default_globals None None None)
    as (t & Hrun & Hy).
  destruct (Hy 2030%Z) as (u & c & Hu & _ & Heq & _); [lia|].
  exists t, u. split; [exact Hrun|]. split; [exact Hu | exact Heq].
Defined.



(** With no growth the share price stays at the strike price of 6.00. *)
Lemma under_water_no_value_2030 :
  6 <= strike_price default_globals /\ 0 <= 0 /\
  exists t,
    calculate_results default_globals (Some 0) None None = Some t /\
    field t 2030 "Share Price" = Some 6 /\
    field_is t 2030 "Redemption Value" 0 /\
    field_is t 2030 "Total Grant Value" 0.
Proof.
  split; [by_arith|]. split; [by_arith|].
  destruct (under_water_no_value default_globals (Some 0) None None)
    as (t & Hrun & Hy).
  assert (field t 2030 "Share Price" = Some 6) as Hp.
  { change ((Some t ≫= fun t => field t 2030 "Share Price") = Some 6).
    rewrite <- Hrun. vm_compute. reflexivity. }
  destruct (Hy 2030%Z 6) as [Hstrike _]; [lia | exact Hp |].
  destruct Hstrike as (Hv & _ & Hg); [by_arith|].
  destruct Hg as [_ Ht]; [by_arith|].
  exists t. split; [exact Hrun|]. split; [exact Hp|].
  split; [exact Hv | exact Ht].
Defined.

Lemma holdings_bounded_2030 :
  0 <= (5 # 100) <= 1 /\ 0 <= 30000 /\ 0 <= 100000 /\
  exists t,
    calculate_results default_globals None None None = Some t /\
    field_le t 2030 "Cumulative Common Redeemed" 30000 /\
    field_le t 2030 "Cumulative Redeemed" 100000.
Proof.
  split; [split; by_arith|]. split; [by_arith|]. split; [by_arith|].
  destruct (holdings_bounded default_globals None None None)
    as (t & Hrun & Hy);
    [split; by_arith | split; by_arith | by_arith | by_arith |].
  destruct (Hy 2030%Z) as (Hc & _ & Ho & _); [lia|].
  exists t. split; [exact Hrun|]. split; [exact Hc | exact Ho].
Defined.


Lemma common_total_value_step_2030 :
  0 <= (20 # 100) /\ 0 <= (5 # 100) <= 1 /\ 0 <= 30000 /\
  exists t total_before total,
    calculate_results default_globals None None None = Some t /\
    field t 2029 "Total Common Share Value" = Some total_before /\
    field t 2030 "Total Common Share Value" = Some total /\
    total_before <= total.
Proof.
  split; [by_arith|]. split; [split; by_arith|]. split; [by_arith|].
  destruct (common_total_value_step default_globals None None None)
    as (t & Hrun & Hy).
  destruct (Hy 2030%Z) as (b & v & pb & p & u & Hb & Hv & _ & _ & _ & _ & Hle);
    [lia|].
  exists t, b, v. split; [exact Hrun|]. split; [exact Hb|].
  split; [exact Hv|]. apply Hle; [by_arith | split; by_arith | by_arith].
Defined.

(** Two calls of the common-redemption analysis (line 414), at 5% and at
    10%. *)
Lemma higher_redemption_lower_value_2030 :
  0 <= (20 # 100) /\ 0 <= (5 # 100) <= (10 # 100) /\ (10 # 100) <= 1 /\
  0 <= 30000 /\
  exists t t' v v',
    calculate_results default_globals (Some (20 # 100)) (Some (5 # 100)) None
      = Some t /\
    calculate_results default_globals (Some (20 # 100)) (Some (10 # 100)) None
      = Some t' /\
    field t 2030 "Total Common Share Value" = Some v /\
    field t' 2030 "Total Common Share Value" = Some v' /\
    v' <= v.
Proof.
  split; [by_arith|]. split; [split; by_arith|]. split; [by_arith|].
  split; [by_arith|].
  destruct (higher_redemption_lower_value default_globals (Some (20 # 100))
              None (5 # 100) (10 # 100)) as (t & t' & Hrun & Hrun' & Hy);
    [by_arith | split; by_arith | by_arith | by_arith |].
  destruct (Hy 2030%Z) as ((v & v' & Hv & Hv' & Hle) & _); [lia|].
  exists t, t', v, v'. split; [exact Hrun|]. split; [exact Hrun'|].
  split; [exact Hv|]. split; [exact Hv' | exact Hle].
Defined.

(** The defaults and a run with another grant, another schedule and
    another option redemption rate. *)
Lemma common_side_independent_2030 :
  exists t t',
    calculate_results default_globals None None None = Some t /\
    calculate_results negative_grant None None None = Some t' /\
    field t 2030 "Total Common Share Value"
    = field t' 2030 "Total Common Share Value".
Proof.
  destruct (common_side_independent default_globals negative_grant
              None None None None None None)
    as (t & t' & Hrun & Hrun' & Hy); try reflexivity.
  exists t, t'. split; [exact Hrun|]. split; [exact Hrun'|].
  apply Hy. unfold common_field_names. listed.
Defined.

(** Two calls of the common-redemption analysis (line 414): the option
    fields are those of the rate of the sidebar. *)
Lemma option_side_independent_2030 :
  exists t t',
    calculate_results default_globals None None None = Some t /\
    calculate_results default_globals None (Some (10 # 100)) None
      = Some t' /\
    field t 2030 "Total Grant Value" = field t' 2030 "Total Grant Value".
Proof.
  destruct (option_side_independent default_globals default_globals
              None None None None (Some (10 # 100)) None)
    as (t & t' & Hrun & Hrun' & Hy); try reflexivity.
  exists t, t'. split; [exact Hrun|]. split; [exact Hrun'|].
  apply Hy. unfold option_field_names. listed.
Defined.

Lemma arguments_override_module_rates_defaults :
  calculate_results default_globals (Some (15 # 100)) (Some 0) (Some 0)
  = calculate_results zero_rates (Some (15 # 100)) (Some 0) (Some 0).
Proof.
  apply (arguments_override_module_rates default_globals zero_rates);
    reflexivity.
Defined.

Lemma default_vesting_schedule_2030 :
  exists v,
    default_vesting 100000 !! 2030%Z = Some (Some v) /\
    v <= 100000 /\ 0 <= v.
Proof.
  destruct (default_vesting_schedule 100000) as (_ & Hy & _).
  destruct (Hy 2030%Z) as (v & Hv & _ & Hle & Hpos); [lia|].
  exists v. split; [exact Hv|]. split; [exact Hle|].
  apply Hpos. by_arith.
Defined.

Lemma default_schedule_used_2030 :
  vested_shares_input default_globals
  = default_vesting (total_grant_shares default_globals) /\
  0 <= total_grant_shares default_globals /\
  exists t,
    calculate_results default_globals None None None = Some t /\
    field t 2030 "Vested Shares" = Some (Qmin 100000 100000).
Proof.
  split; [vm_compute; reflexivity|]. split; [by_arith|].
  destruct (default_schedule_used default_globals None None None)
    as (t & Hrun & Hy); [vm_compute; reflexivity | by_arith |].
  exists t. split; [exact Hrun|]. apply (Hy 2030%Z). lia.
Defined.

Lemma vesting_warnings_spec_custom :
  exists warnings,
    vesting_warnings custom_vesting = Some warnings /\
    (2027%Z, 2026%Z) ∈ warnings /\ (2028%Z, 2027%Z) ∉ warnings.
Proof.
  assert (forall y, (2025 <= y <= 2035)%Z ->
            is_Some (number_at custom_vesting y)) as Hin.
  { intros y Hy.
    assert (y = 2025 \/ y = 2026 \/ y = 2027 \/ y = 2028 \/ y = 2029 \/
            y = 2030 \/ y = 2031 \/ y = 2032 \/ y = 2033 \/ y = 2034 \/
            y = 2035)%Z as Hcases by lia.
    repeat destruct Hcases as [-> | Hcases]; try subst y;
      vm_compute; eexists; reflexivity. }
  assert (forall y, ~ (2025 <= y <= 2035)%Z -> custom_vesting !! y = None)
    as Hout.
  { intros y Hy. unfold custom_vesting.
    rewrite lookup_insert_ne by lia.
    rewrite default_vesting_lookup. apply decide_False. exact Hy. }
  destruct (vesting_warnings_spec custom_vesting Hin Hout)
    as (warnings & Hw & Hmem).
  exists warnings. split; [exact Hw|]. split.
  - apply Hmem. split; [lia|]. split; [reflexivity|].
    exists 50000, 70000. split; [vm_compute; reflexivity|].
    split; [vm_compute; reflexivity | by_arith].
  - intros H. apply Hmem in H as (_ & _ & c & p & Hc & Hp & Hlt).
    vm_compute in Hc. vm_compute in Hp.
    injection Hc as <-. injection Hp as <-. revert Hlt. by_arith.
Defined.

End MoreDefaults.
